(** * sign1: signing every signature template of a document

    A shallow embedding of [examples/sign1.c]: the namespace-list parser
    [register_namespaces], the diagnostic printer [print_xpath_nodes], the
    identifier registration [RegisterID], the per-template signer
    [do_sign_node], the driver [sign_file] and the entry point [main].

    The XML parser, the XPath evaluator and the signature engine are
    collaborators of the program.  Their entry points are fields of the
    record [Libs]; the general statements below hold for an arbitrary
    value of that record, and a sample value ([Sample.libs]) is used to
    run the program on small documents. *)

From Equations Require Import Equations.
From Stdlib Require Import ZArith Ascii String.
From stdpp Require Import gmap strings list fin_maps sorting.

Local Open Scope Z_scope.

(** ** C strings

    A C string is the list of its characters before the terminating NUL.
    [xmlChar] is an 8-bit character. *)

Abbreviation xmlChar := ascii.

Definition of_c (s : list xmlChar) : string := string_of_list_ascii s.
Definition to_c (s : string) : list xmlChar := list_ascii_of_string s.

Definition is_space (c : xmlChar) : bool := Ascii.eqb c " "%char.

(** [xmlStrchr str val]: the offset of the first occurrence of [val] in
    [str], [None] for the NULL result. *)
Fixpoint xmlStrchr (str : list xmlChar) (val : xmlChar) : option nat :=
  match str with
  | [] => None
  | c :: rest =>
      if Ascii.eqb c val then Some O
      else match xmlStrchr rest val with
           | Some i => Some (S i)
           | None => None
           end
  end.

(** [while( *next == ' ') next++;] *)
Fixpoint skip_spaces (next : list xmlChar) : list xmlChar :=
  match next with
  | c :: rest => if is_space c then skip_spaces rest else next
  | [] => []
  end.

Lemma skip_spaces_length next : (length (skip_spaces next) <= length next)%nat.
Proof.
  induction next as [|c rest IH]; simpl; [lia|].
  destruct (is_space c); simpl; lia.
Qed.

Lemma xmlStrchr_lt str val i :
  xmlStrchr str val = Some i -> (i < length str)%nat.
Proof.
  revert i; induction str as [|c rest IH]; intros i; simpl; [discriminate|].
  destruct (Ascii.eqb c val).
  - intros [= <-]. lia.
  - destruct (xmlStrchr rest val) as [j|]; [|discriminate].
    intros [= <-]. specialize (IH j eq_refl). lia.
Qed.

(** [inspect x] keeps the equation between [x] and the pattern it is
    matched against. *)
Definition inspect {A : Type} (x : A) : { y : A | x = y } := exist _ x eq_refl.

(** ** Diagnostics

    One constructor for each [fprintf(stderr, ...)] of the program, with
    the values the format prints. *)

Inductive diag :=
| E_strdup_ns_list
| E_ns_list_format
| E_register_ns (prefix href : string)
| E_wrong_arguments
| E_usage (argv0 : string)
| E_xmlsec_init
| E_xmlsec_version
| E_crypto_app_init
| E_crypto_init
| E_get_attribute (idName : string)
| E_get_attribute_value (idName : string)
| E_create_context
| E_load_key (key_file : string)
| E_set_key_name (key_file : string)
| E_signature_failed
| E_parse_file (tmpl_file : string)
| E_find_node (name : string)
| E_register_id_certsNode
| E_register_id_certNode
| E_new_xpath_context
| E_register_ns_list (nsList : string)
| E_eval_xpath (xpathExpr : string)
| E_start_node_not_found (tmpl_file : string)
| E_sign_node.

(** ** The XPath context and its namespace table *)

Record xmlXPathContext := mkXPathContext {
  nsHash : gmap string string
}.

Section Namespaces.

(** [xmlXPathRegisterNs ctxt prefix ns_uri]: the status and the context
    after the call. *)
Variable xmlXPathRegisterNs :
  xmlXPathContext -> string -> string -> Z * xmlXPathContext.

(** The [while(next != NULL)] loop of [register_namespaces].  [next] is
    the unread part of the duplicated list; the recursion stops when the
    loop leaves through [break], through a [return] or with
    [next == NULL]. *)
Equations? register_namespaces_loop (next : list xmlChar)
    (xpathCtx : xmlXPathContext) : Z * xmlXPathContext * list diag
    by wf (length next) lt :=
  register_namespaces_loop next xpathCtx with inspect (skip_spaces next) := {
    | exist _ [] _ => (0, xpathCtx, [])
    | exist _ (c :: r) Hs with inspect (xmlStrchr (c :: r) "="%char) := {
        | exist _ None _ => (-1, xpathCtx, [E_ns_list_format])
        | exist _ (Some i) Hi with inspect (xmlStrchr (drop (S i) (c :: r)) " "%char) := {
            | exist _ None _ =>
                let prefix := of_c (take i (c :: r)) in
                let href := of_c (drop (S i) (c :: r)) in
                let '(rc, ctx') := xmlXPathRegisterNs xpathCtx prefix href in
                if negb (rc =? 0) then (-1, ctx', [E_register_ns prefix href])
                else (0, ctx', [])
            | exist _ (Some j) Hj =>
                let prefix := of_c (take i (c :: r)) in
                let href := of_c (take j (drop (S i) (c :: r))) in
                let '(rc, ctx') := xmlXPathRegisterNs xpathCtx prefix href in
                if negb (rc =? 0) then (-1, ctx', [E_register_ns prefix href])
                else register_namespaces_loop
                       (drop (S j) (drop (S i) (c :: r))) ctx'
          }
      }
  }.
Proof.
  pose proof (skip_spaces_length next) as Hlen.
  rewrite Hs in Hlen. rewrite !length_drop. simpl in *. lia.
Qed.

(** [xmlStrdup]: the copy of a string; [None] is the NULL of a failed
    allocation, which the model does not produce. *)
Definition xmlStrdup (cur : list xmlChar) : option (list xmlChar) := Some cur.

(** [register_namespaces xpathCtx nsList]: the status, the context after
    the call and the lines written to stderr. *)
Definition register_namespaces (xpathCtx : xmlXPathContext)
    (nsList : list xmlChar) : Z * xmlXPathContext * list diag :=
  match xmlStrdup nsList with
  | None => (-1, xpathCtx, [E_strdup_ns_list])
  | Some nsListDup => register_namespaces_loop nsListDup xpathCtx
  end.

End Namespaces.


(** ** The document tree *)

Inductive xmlElementType :=
| XML_ELEMENT_NODE
| XML_ATTRIBUTE_NODE
| XML_TEXT_NODE
| XML_CDATA_SECTION_NODE
| XML_ENTITY_REF_NODE
| XML_PI_NODE
| XML_COMMENT_NODE
| XML_NAMESPACE_DECL.

(** The value [%d] prints for a node type. *)
Definition xmlElementType_code (t : xmlElementType) : Z :=
  match t with
  | XML_ELEMENT_NODE => 1
  | XML_ATTRIBUTE_NODE => 2
  | XML_TEXT_NODE => 3
  | XML_CDATA_SECTION_NODE => 4
  | XML_ENTITY_REF_NODE => 5
  | XML_PI_NODE => 7
  | XML_COMMENT_NODE => 8
  | XML_NAMESPACE_DECL => 18
  end.

Definition xmlElementType_eqb (a b : xmlElementType) : bool :=
  xmlElementType_code a =? xmlElementType_code b.

Record xmlNs := mkNs {
  ns_prefix : string;
  ns_href : string
}.

(** An attribute: its name and the contents of the text nodes under
    [attr->children]; [[]] is the NULL [children]. *)
Record xmlAttr := mkAttr {
  attr_name : string;
  attr_children : list string
}.

#[warnings="-register-all"] Inductive xmlNode :=
| mkNode (type : xmlElementType) (name : string) (ns : option xmlNs)
         (properties : list xmlAttr) (children : list xmlNode).

Definition node_type (n : xmlNode) : xmlElementType :=
  let 'mkNode t _ _ _ _ := n in t.
Definition node_name (n : xmlNode) : string :=
  let 'mkNode _ x _ _ _ := n in x.
Definition node_ns (n : xmlNode) : option xmlNs :=
  let 'mkNode _ _ x _ _ := n in x.
Definition node_properties (n : xmlNode) : list xmlAttr :=
  let 'mkNode _ _ _ x _ := n in x.
Definition node_children (n : xmlNode) : list xmlNode :=
  let 'mkNode _ _ _ _ x := n in x.

(** A node pointer is the path of child indices from the root element to
    the node ([[]] is the root element itself); NULL is [None].  An
    attribute pointer is its node and its name. *)
Definition xmlNodePtr := list nat.
Definition xmlAttrPtr := (xmlNodePtr * string)%type.

(** A document: the tree under its root element and [doc->ids], the table
    of registered identifiers. *)
Record xmlDoc := mkDoc {
  doc_root : option xmlNode;
  doc_ids : gmap string xmlAttrPtr
}.

Fixpoint node_at (n : xmlNode) (p : xmlNodePtr) : option xmlNode :=
  match p with
  | [] => Some n
  | i :: p' =>
      match node_children n !! i with
      | Some c => node_at c p'
      | None => None
      end
  end.

(** The node a pointer designates in the document. *)
Definition deref (doc : xmlDoc) (p : xmlNodePtr) : option xmlNode :=
  match doc_root doc with
  | Some r => node_at r p
  | None => None
  end.

(** [xmlDocGetRootElement doc] *)
Definition xmlDocGetRootElement (doc : xmlDoc) : option xmlNodePtr :=
  match doc_root doc with
  | Some _ => Some []
  | None => None
  end.

(** [xmlHasProp node name]: the first attribute of the node with that
    name. *)
Definition xmlHasProp (doc : xmlDoc) (node : xmlNodePtr) (name : string)
    : option xmlAttr :=
  match deref doc node with
  | Some n => List.find (fun a => String.eqb (attr_name a) name) (node_properties n)
  | None => None
  end.

(** [xmlGetID doc ID]: the attribute registered under the identifier. *)
Definition xmlGetID (doc : xmlDoc) (ID : string) : option xmlAttrPtr :=
  doc_ids doc !! ID.

(** Does the node carry this local name and this namespace URI? *)
Definition node_matches (n : xmlNode) (name ns : string) : bool :=
  String.eqb (node_name n) name &&
  match node_ns n with
  | Some x => String.eqb (ns_href x) ns
  | None => false
  end.

(** Pre-order search below one node; the result is the path from that
    node to the first match. *)
Fixpoint find_preorder (name ns : string) (n : xmlNode) : option xmlNodePtr :=
  if node_matches n name ns then Some []
  else
    (fix in_children (cs : list xmlNode) (i : nat) : option xmlNodePtr :=
       match cs with
       | [] => None
       | c :: cs' =>
           match find_preorder name ns c with
           | Some p => Some (i :: p)
           | None => in_children cs' (S i)
           end
       end) (node_children n) O.

(** Modelled from the spec: [xmlSecFindNode] is declared in
    [xmlsec/xmltree.h] and its body is not part of the example.  The
    locator "performs a pre-order traversal of the subtree; returns the
    first node whose local name and namespace URI both match exactly;
    returns nothing if no match exists". *)
Definition xmlSecFindNode (doc : xmlDoc) (parent : xmlNodePtr)
    (name ns : string) : option xmlNodePtr :=
  match deref doc parent with
  | Some n =>
      match find_preorder name ns n with
      | Some p => Some (parent ++ p)
      | None => None
      end
  | None => None
  end.

(** ** The XPath result *)

(** An entry of [nodeTab]: a node of the tree, or a namespace node
    ([xmlNs] read through a node pointer) whose [next] field designates
    the element it belongs to. *)
Inductive xpathNode :=
| XPNode (p : xmlNodePtr)
| XPNamespace (ns : xmlNs) (next : xmlNodePtr).

(** [xmlNodeSet]: [nodeNr] is the length of [nodeTab]. *)
Record xmlNodeSet := mkNodeSet {
  nodeTab : list xpathNode
}.

(** [xmlXPathObject]: [nodesetval] may be NULL. *)
Record xmlXPathObject := mkXPathObject {
  nodesetval : option xmlNodeSet
}.

(** [nodes->nodeTab[i]->type]; a pointer that designates no node of the
    tree has no type. *)
Definition xpathNode_type (doc : xmlDoc) (x : xpathNode) : option xmlElementType :=
  match x with
  | XPNode p => node_type <$> deref doc p
  | XPNamespace _ _ => Some XML_NAMESPACE_DECL
  end.

Definition is_element (doc : xmlDoc) (x : xpathNode) : bool :=
  match xpathNode_type doc x with
  | Some t => xmlElementType_eqb t XML_ELEMENT_NODE
  | None => false
  end.

(** ** The signature engine *)

Record xmlSecKey := mkKey {
  key_value : Z;
  key_name : option string
}.

(** A signature context: the identity of the instance and its
    [signKey]. *)
Record xmlSecDSigCtx := mkDSigCtx {
  ctx_id : nat;
  signKey : option xmlSecKey
}.

(** The calls the program makes on the signature engine. *)
Inductive engine_event :=
| EvCreate (h : nat)
| EvLoadKey (h : nat) (key_file : string)
| EvSetName (h : nat) (name : string)
| EvSign (h : nat) (doc : xmlDoc) (node : xmlNodePtr)
| EvDebugDump (h : nat)
| EvDestroy (h : nat).

(** What is written to stdout. *)
Inductive out_event :=
| OutResult (size : Z)
| OutNamespaceOfNsNode (prefix href owner_href owner_name : string)
| OutNamespaceOfNode (prefix href owner_name : string)
| OutElementNs (href name : string)
| OutElement (name : string)
| OutNode (name : string) (type : Z)
| OutDSigCtxDebugDump (ctx : xmlSecDSigCtx)
| OutDocDump (doc : xmlDoc).

(** ** The world of a run

    [w_env] is the state of everything outside the program (files, the
    libraries' own state); the other fields record what the program has
    written and which engine calls it has made.  [w_created] counts the
    signature contexts created so far and names the next one. *)

Record World (Env : Type) := mkWorld {
  w_env : Env;
  w_stdout : list out_event;
  w_stderr : list diag;
  w_engine : list engine_event;
  w_created : nat
}.
Arguments mkWorld {Env}.
Arguments w_env {Env}.
Arguments w_stdout {Env}.
Arguments w_stderr {Env}.
Arguments w_engine {Env}.
Arguments w_created {Env}.

(** The entry points of the libraries.  A call that depends on the
    outside world reads and updates [Env].  [xmlSecNodeSignature] and
    [xmlSecDSigNs] are the two string constants of the library that
    [sign_file] uses.  [xmlAddID] acts on [doc->ids] only.
    [xmlSecDSigCtxSign] fills the template in place: it returns its
    status and the document after the call.  [alloc_dsig_ctx] tells
    whether the library can allocate a signature context. *)
Record Libs (Env : Type) := mkLibs {
  xmlSecNodeSignature : string;
  xmlSecDSigNs : string;
  xmlReadFile : string -> Env -> option xmlDoc * Env;
  xmlNodeListGetString : xmlDoc -> list string -> option string;
  xmlAddID : gmap string xmlAttrPtr -> string -> xmlAttrPtr -> gmap string xmlAttrPtr;
  xmlXPathNewContext : xmlDoc -> Env -> option xmlXPathContext * Env;
  xmlXPathRegisterNs : xmlXPathContext -> string -> string -> Z * xmlXPathContext;
  xmlXPathEvalExpression :
    string -> xmlXPathContext -> xmlDoc -> Env -> option xmlXPathObject * Env;
  alloc_dsig_ctx : Env -> bool * Env;
  xmlSecCryptoAppKeyLoadEx : string -> Env -> option xmlSecKey * Env;
  xmlSecKeySetName : xmlSecKey -> string -> Env -> Z * Env;
  xmlSecDSigCtxSign :
    xmlSecDSigCtx -> xmlDoc -> xmlNodePtr -> Env -> (Z * xmlDoc) * Env;
  xmlSecInit : Env -> Z * Env;
  xmlSecCheckVersion : Env -> Z * Env;
  xmlSecCryptoAppInit : Env -> Z * Env;
  xmlSecCryptoInit : Env -> Z * Env
}.
Arguments xmlSecNodeSignature {Env}.
Arguments xmlSecDSigNs {Env}.
Arguments xmlReadFile {Env}.
Arguments xmlNodeListGetString {Env}.
Arguments xmlAddID {Env}.
Arguments xmlXPathNewContext {Env}.
Arguments xmlXPathRegisterNs {Env}.
Arguments xmlXPathEvalExpression {Env}.
Arguments alloc_dsig_ctx {Env}.
Arguments xmlSecCryptoAppKeyLoadEx {Env}.
Arguments xmlSecKeySetName {Env}.
Arguments xmlSecDSigCtxSign {Env}.
Arguments xmlSecInit {Env}.
Arguments xmlSecCheckVersion {Env}.
Arguments xmlSecCryptoAppInit {Env}.
Arguments xmlSecCryptoInit {Env}.

Section Program.

Context {Env : Type} (L : Libs Env).

Definition put_env (w : World Env) (e : Env) : World Env :=
  mkWorld e (w_stdout w) (w_stderr w) (w_engine w) (w_created w).
Definition log_err (w : World Env) (d : list diag) : World Env :=
  mkWorld (w_env w) (w_stdout w) (w_stderr w ++ d) (w_engine w) (w_created w).
Definition log_out (w : World Env) (o : list out_event) : World Env :=
  mkWorld (w_env w) (w_stdout w ++ o) (w_stderr w) (w_engine w) (w_created w).
Definition log_engine (w : World Env) (ev : engine_event) : World Env :=
  mkWorld (w_env w) (w_stdout w) (w_stderr w) (w_engine w ++ [ev]) (w_created w).
Definition count_created (w : World Env) : World Env :=
  mkWorld (w_env w) (w_stdout w) (w_stderr w) (w_engine w) (S (w_created w)).

(** *** print_xpath_nodes *)

(** The line printed for one entry of the node table.  A tree node
    whose type is neither element nor namespace takes the last branch;
    a pointer that designates nothing prints nothing. *)
Definition print_xpath_node (doc : xmlDoc) (x : xpathNode) : list out_event :=
  match x with
  | XPNamespace ns next =>
      match deref doc next with
      | Some cur =>
          match node_ns cur with
          | Some cns =>
              [OutNamespaceOfNsNode (ns_prefix ns) (ns_href ns)
                 (ns_href cns) (node_name cur)]
          | None =>
              [OutNamespaceOfNode (ns_prefix ns) (ns_href ns) (node_name cur)]
          end
      | None => []
      end
  | XPNode p =>
      match deref doc p with
      | Some cur =>
          if xmlElementType_eqb (node_type cur) XML_ELEMENT_NODE then
            match node_ns cur with
            | Some cns => [OutElementNs (ns_href cns) (node_name cur)]
            | None => [OutElement (node_name cur)]
            end
          else [OutNode (node_name cur) (xmlElementType_code (node_type cur))]
      | None => []
      end
  end.

(** [print_xpath_nodes nodes output]: what is written to [output]. *)
Definition print_xpath_nodes (doc : xmlDoc) (nodes : option xmlNodeSet)
    : list out_event :=
  let tab := match nodes with Some s => nodeTab s | None => [] end in
  let size := Z.of_nat (length tab) in
  OutResult size :: concat (List.map (print_xpath_node doc) tab).

(** *** RegisterID *)

Definition RegisterID (doc : xmlDoc) (node : xmlNodePtr) (idName : string)
    (w : World Env) : Z * xmlDoc * World Env :=
  (* find pointer to id attribute *)
  match xmlHasProp doc node idName with
  | None => (-1, doc, log_err w [E_get_attribute idName])
  | Some attr =>
      match attr_children attr with
      | [] => (-1, doc, log_err w [E_get_attribute idName])
      | _ :: _ =>
          (* get the attribute (id) value *)
          match xmlNodeListGetString L doc (attr_children attr) with
          | None => (-1, doc, log_err w [E_get_attribute_value idName])
          | Some name =>
              (* the check for an already registered id is commented
                 out in the source *)
              (* finally register id *)
              let ids := xmlAddID L (doc_ids doc) name (node, attr_name attr) in
              (0, mkDoc (doc_root doc) ids, w)
          end
      end
  end.

(** *** do_sign_node *)

(** The [done:] label: the context is destroyed when it was created. *)
Definition do_sign_node_done (h : nat) (w : World Env) : World Env :=
  log_engine w (EvDestroy h).

(** Modelled from the spec: [xmlSecDSigCtxCreate] is implemented in the
    library ([xmlsec/xmldsig.h] declares it), not in the example.  "Each
    gets a fresh engine instance": when the library can allocate one
    ([alloc_dsig_ctx]), the context returned has an identity that no
    context had before and holds no key; [None] is the NULL of a failed
    call. *)
Definition xmlSecDSigCtxCreate (w : World Env)
    : option xmlSecDSigCtx * World Env :=
  let '(allocated, e) := alloc_dsig_ctx L (w_env w) in
  let w := put_env w e in
  if allocated then
    (Some (mkDSigCtx (w_created w) None),
     log_engine (count_created w) (EvCreate (w_created w)))
  else (None, w).

Definition do_sign_node (doc : xmlDoc) (node : xmlNodePtr) (key_file : string)
    (w : World Env) : Z * xmlDoc * World Env :=
  (* create signature context *)
  let '(created, w) := xmlSecDSigCtxCreate w in
  match created with
  | None => (-1, doc, log_err w [E_create_context])
  | Some dsigCtx =>
    let h := ctx_id dsigCtx in
    (* load private key *)
    let '(key, e) := xmlSecCryptoAppKeyLoadEx L key_file (w_env w) in
    let w := log_engine (put_env w e) (EvLoadKey h key_file) in
    let dsigCtx := mkDSigCtx h key in
    match signKey dsigCtx with
    | None => (-1, doc, do_sign_node_done h (log_err w [E_load_key key_file]))
    | Some k =>
        (* set key name to the file name *)
        let '(rc, e) := xmlSecKeySetName L k key_file (w_env w) in
        let w := log_engine (put_env w e) (EvSetName h key_file) in
        if rc <? 0 then
          (-1, doc, do_sign_node_done h (log_err w [E_set_key_name key_file]))
        else
          let dsigCtx := mkDSigCtx h (Some (mkKey (key_value k) (Some key_file))) in
          (* sign the template *)
          let '(rc, doc', e) := xmlSecDSigCtxSign L dsigCtx doc node (w_env w) in
          let w := log_engine (put_env w e) (EvSign h doc node) in
          if rc <? 0 then
            (-1, doc', do_sign_node_done h (log_err w [E_signature_failed]))
          else
            let w := log_engine (log_out w [OutDSigCtxDebugDump dsigCtx])
                       (EvDebugDump h) in
            (0, doc', do_sign_node_done h w)
    end
  end.

(** *** sign_file *)

Definition xmlSecNodeCertificates : string := "certificates".
Definition xmlSecNodeCertificatesNS : string :=
  "http://vde.com/fnn/stb/certificates/1.4.0".
Definition nsList : string := "sig=http://www.w3.org/2000/09/xmldsig#".
Definition xpathExpr : string := "//sig:Signature".

(** The [for] loop over the node table.  The result is 0 when the loop
    runs to its end and -1 when it leaves through [goto done]. *)
Fixpoint sign_nodes (key_file : string) (tab : list xpathNode) (doc : xmlDoc)
    (w : World Env) : Z * xmlDoc * World Env :=
  match tab with
  | [] => (0, doc, w)
  | x :: rest =>
      match x with
      | XPNode cur =>
          if is_element doc x then
            let '(rc, doc', w') := do_sign_node doc cur key_file w in
            if rc <? 0 then (-1, doc', log_err w' [E_sign_node])
            else sign_nodes key_file rest doc' w'
          else sign_nodes key_file rest doc w
      | XPNamespace _ _ => sign_nodes key_file rest doc w
      end
  end.

Definition sign_file (tmpl_file key_file : string) (w : World Env)
    : Z * World Env :=
  (* load template *)
  let '(parsed, e) := xmlReadFile L tmpl_file (w_env w) in
  let w := put_env w e in
  match parsed with
  | None => (-1, log_err w [E_parse_file tmpl_file])
  | Some doc =>
  match xmlDocGetRootElement doc with
  | None => (-1, log_err w [E_parse_file tmpl_file])
  | Some root =>
  match xmlSecFindNode doc root xmlSecNodeCertificates xmlSecNodeCertificatesNS with
  | None => (-1, log_err w [E_find_node xmlSecNodeCertificates])
  | Some certsNode =>
  let '(rc, doc, w) := RegisterID doc certsNode "id" w in
  if rc <? 0 then (-1, log_err w [E_register_id_certsNode]) else
  match xmlSecFindNode doc root "certificate" xmlSecNodeCertificatesNS with
  | None => (-1, log_err w [E_find_node xmlSecNodeCertificates])
  | Some certNode =>
  let '(rc, doc, w) := RegisterID doc certNode "id" w in
  if rc <? 0 then (-1, log_err w [E_register_id_certNode]) else
  (* Create xpath evaluation context *)
  let '(ctx, e) := xmlXPathNewContext L doc (w_env w) in
  let w := put_env w e in
  match ctx with
  | None => (-1, log_err w [E_new_xpath_context])
  | Some xpathCtx =>
  (* Register namespaces from list *)
  let '(rc, xpathCtx, msgs) :=
    register_namespaces (xmlXPathRegisterNs L) xpathCtx (to_c nsList) in
  let w := log_err w msgs in
  if rc <? 0 then (-1, log_err w [E_register_ns_list nsList]) else
  (* Evaluate xpath expression *)
  let '(obj, e) := xmlXPathEvalExpression L xpathExpr xpathCtx doc (w_env w) in
  let w := put_env w e in
  match obj with
  | None => (-1, log_err w [E_eval_xpath xpathExpr])
  | Some xpathObj =>
  (* Print results *)
  let w := log_out w (print_xpath_nodes doc (nodesetval xpathObj)) in
  (* sign all nodes *)
  match xmlSecFindNode doc root (xmlSecNodeSignature L) (xmlSecDSigNs L) with
  | None => (-1, log_err w [E_start_node_not_found tmpl_file])
  | Some _ =>
  let tab := match nodesetval xpathObj with Some s => nodeTab s | None => [] end in
  let '(rc, doc, w) := sign_nodes key_file tab doc w in
  if rc <? 0 then (-1, w) else
  (* print signed document to stdout *)
  let w := log_out w [OutDocDump doc] in
  (* success *)
  (0, w)
  end end end end end end end.

(** *** main *)

(** [XMLSEC_CRYPTO_DYNAMIC_LOADING] is not defined: the build
    configures with [--disable-crypto-dl]. *)
Definition main (argc : Z) (argv : list string) (w : World Env) : Z * World Env :=
  if negb (argc =? 3) then
    (1, log_err w [E_wrong_arguments; E_usage (List.nth 0 argv "")])
  else
    (* Init xmlsec library *)
    let '(rc, e) := xmlSecInit L (w_env w) in
    let w := put_env w e in
    if rc <? 0 then (-1, log_err w [E_xmlsec_init]) else
    (* Check loaded library version *)
    let '(rc, e) := xmlSecCheckVersion L (w_env w) in
    let w := put_env w e in
    if negb (rc =? 1) then (-1, log_err w [E_xmlsec_version]) else
    (* Init crypto library *)
    let '(rc, e) := xmlSecCryptoAppInit L (w_env w) in
    let w := put_env w e in
    if rc <? 0 then (-1, log_err w [E_crypto_app_init]) else
    (* Init xmlsec-crypto library *)
    let '(rc, e) := xmlSecCryptoInit L (w_env w) in
    let w := put_env w e in
    if rc <? 0 then (-1, log_err w [E_crypto_init]) else
    let '(rc, w) := sign_file (List.nth 1 argv "") (List.nth 2 argv "") w in
    if rc <? 0 then (-1, w) else
    (0, w).

End Program.

(** The status a parent process reads for a value returned from [main]. *)
Definition exit_status (ret : Z) : Z := ret mod 256.

(** ** A sample world

    Collaborators simple enough to run the program on small documents:
    the file system is a table of parsed documents, the identifier table
    keeps the first registration of a value, a namespace prefix must be
    non-empty, the query returns every [Signature] element in pre-order,
    and the engine signs as long as the budget in the environment lasts. *)

Module Sample.

Definition dsig_ns : string := "http://www.w3.org/2000/09/xmldsig#".

Record env := mkEnv {
  files : list (string * xmlDoc);
  key_files : list string;
  sign_budget : nat
}.

Fixpoint lookup_file (fs : list (string * xmlDoc)) (path : string) : option xmlDoc :=
  match fs with
  | [] => None
  | (p, d) :: fs' => if String.eqb p path then Some d else lookup_file fs' path
  end.

(** Every node below [n] with its path, in pre-order. *)
Fixpoint preorder (n : xmlNode) : list (xmlNodePtr * xmlNode) :=
  ([], n) ::
  (fix in_children (cs : list xmlNode) (i : nat) : list (xmlNodePtr * xmlNode) :=
     match cs with
     | [] => []
     | c :: cs' =>
         List.map (fun pn => (i :: fst pn, snd pn)) (preorder c)
         ++ in_children cs' (S i)
     end) (node_children n) O.

Definition signatures (doc : xmlDoc) : list xpathNode :=
  match doc_root doc with
  | Some r =>
      List.map (fun pn => XPNode (fst pn))
        (List.filter
           (fun pn => xmlElementType_eqb (node_type (snd pn)) XML_ELEMENT_NODE
                      && node_matches (snd pn) "Signature" dsig_ns)
           (preorder r))
  | None => []
  end.

Definition register_ns (ctx : xmlXPathContext) (prefix href : string)
    : Z * xmlXPathContext :=
  if String.eqb prefix "" then (-1, ctx)
  else (0, mkXPathContext (<[prefix := href]> (nsHash ctx))).

Definition add_id (ids : gmap string xmlAttrPtr) (value : string) (attr : xmlAttrPtr)
    : gmap string xmlAttrPtr :=
  match ids !! value with
  | Some _ => ids
  | None => <[value := attr]> ids
  end.

Definition libs : Libs env := {|
  xmlSecNodeSignature := "Signature";
  xmlSecDSigNs := dsig_ns;
  xmlReadFile := fun path e => (lookup_file (files e) path, e);
  xmlNodeListGetString := fun _ texts => Some (String.concat "" texts);
  xmlAddID := add_id;
  xmlXPathNewContext := fun _ e => (Some (mkXPathContext ∅), e);
  xmlXPathRegisterNs := register_ns;
  xmlXPathEvalExpression := fun _ _ doc e =>
    (Some (mkXPathObject (Some (mkNodeSet (signatures doc)))), e);
  alloc_dsig_ctx := fun e => (true, e);
  xmlSecCryptoAppKeyLoadEx := fun path e =>
    (if existsb (String.eqb path) (key_files e) then Some (mkKey 7 None) else None, e);
  xmlSecKeySetName := fun _ _ e => (0, e);
  xmlSecDSigCtxSign := fun _ doc _ e =>
    match sign_budget e with
    | O => ((-1, doc), e)
    | S n => ((0, doc), mkEnv (files e) (key_files e) n)
    end;
  xmlSecInit := fun e => (0, e);
  xmlSecCheckVersion := fun e => (1, e);
  xmlSecCryptoAppInit := fun e => (0, e);
  xmlSecCryptoInit := fun e => (0, e)
|}.

Definition certs_ns : option xmlNs :=
  Some (mkNs "c" "http://vde.com/fnn/stb/certificates/1.4.0").
Definition sig_ns : option xmlNs := Some (mkNs "ds" dsig_ns).

Definition elem (name : string) (ns : option xmlNs) (attrs : list xmlAttr)
    (children : list xmlNode) : xmlNode :=
  mkNode XML_ELEMENT_NODE name ns attrs children.
Definition text : xmlNode :=
  mkNode XML_TEXT_NODE "text" None [] [].

(** A template with a certificate inside the container and two
    signature templates. *)
Definition template : xmlDoc :=
  mkDoc (Some (elem "doc" None []
    [ elem "certificates" certs_ns [mkAttr "id" ["certs1"]]
        [ elem "certificate" certs_ns [mkAttr "id" ["cert1"]] [text] ];
      elem "Signature" sig_ns [] [];
      text;
      elem "Signature" sig_ns [] [] ])) ∅.

(** The certificate comes before the container, as its sibling; the
    container is empty. *)
Definition template_cert_outside : xmlDoc :=
  mkDoc (Some (elem "doc" None []
    [ elem "certificate" certs_ns [mkAttr "id" ["cert1"]] [];
      elem "certificates" certs_ns [mkAttr "id" ["certs1"]] [];
      elem "Signature" sig_ns [] [] ])) ∅.

(** Container and certificate carry the same identifier value. *)
Definition template_same_id : xmlDoc :=
  mkDoc (Some (elem "doc" None []
    [ elem "certificates" certs_ns [mkAttr "id" ["x"]]
        [ elem "certificate" certs_ns [mkAttr "id" ["x"]] [] ];
      elem "Signature" sig_ns [] [] ])) ∅.

(** No signature template at all. *)
Definition template_unsigned : xmlDoc :=
  mkDoc (Some (elem "doc" None []
    [ elem "certificates" certs_ns [mkAttr "id" ["certs1"]]
        [ elem "certificate" certs_ns [mkAttr "id" ["cert1"]] [] ] ])) ∅.

(** A signature template and no certificate data. *)
Definition template_bare : xmlDoc :=
  mkDoc (Some (elem "doc" None [] [ elem "Signature" sig_ns [] [] ])) ∅.

Definition file_system : list (string * xmlDoc) :=
  [("tmpl.xml", template); ("outside.xml", template_cert_outside);
   ("same-id.xml", template_same_id); ("unsigned.xml", template_unsigned);
   ("bare.xml", template_bare)].

Definition world (budget : nat) : World env :=
  mkWorld (mkEnv file_system ["rsakey.pem"] budget) [] [] [] O.

End Sample.

(** ** The discipline of engine calls

    A checker for a log of engine calls: at most one context is live at a
    time; a context is created under an identity not used before, gets its
    key loaded, signs at most once, and is destroyed before the next one
    is created. *)

Inductive phase := Created | KeyLoaded | Signed.

Definition engine_state := (option (nat * phase) * list nat)%type.

Definition engine_step (st : engine_state) (ev : engine_event)
    : option engine_state :=
  match ev, st with
  | EvCreate h, (None, seen) =>
      if existsb (Nat.eqb h) seen then None
      else Some (Some (h, Created), h :: seen)
  | EvLoadKey h _, (Some (h', Created), seen) =>
      if Nat.eqb h h' then Some (Some (h, KeyLoaded), seen) else None
  | EvSetName h _, (Some (h', KeyLoaded), seen) =>
      if Nat.eqb h h' then Some st else None
  | EvSign h _ _, (Some (h', KeyLoaded), seen) =>
      if Nat.eqb h h' then Some (Some (h, Signed), seen) else None
  | EvDebugDump h, (Some (h', Signed), seen) =>
      if Nat.eqb h h' then Some st else None
  | EvDestroy h, (Some (h', _), seen) =>
      if Nat.eqb h h' then Some (None, seen) else None
  | _, _ => None
  end.

Fixpoint engine_run (st : engine_state) (log : list engine_event)
    : option engine_state :=
  match log with
  | [] => Some st
  | ev :: log' =>
      match engine_step st ev with
      | Some st' => engine_run st' log'
      | None => None
      end
  end.


(** The nodes handed to [xmlSecDSigCtxSign], in the order of the calls. *)
Definition sign_targets (log : list engine_event) : list xpathNode :=
  omap (fun ev => match ev with
                  | EvSign _ _ p => Some (XPNode p)
                  | _ => None
                  end) log.

(** The documents written to stdout. *)
Definition doc_dumps (out : list out_event) : list xmlDoc :=
  omap (fun o => match o with OutDocDump d => Some d | _ => None end) out.

(** ** Vocabulary of the statements *)

Section Vocabulary.

Context {Env : Type} (L : Libs Env).

(** The engine calls made between two worlds: they target nodes of [tab]
    in the order of [tab], each target is an element when it is signed,
    every key comes from [key_file], and the calls follow the discipline
    of [engine_run] with no context left live. *)
Definition engine_effect (key_file : string) (tab : list xpathNode)
    (w w' : World Env) : Prop :=
  exists evs,
    w_engine w' = w_engine w ++ evs /\
    sign_targets evs `sublist_of` tab /\
    (forall h d p, EvSign h d p ∈ evs -> is_element d (XPNode p) = true) /\
    (forall h kf, EvLoadKey h kf ∈ evs -> kf = key_file) /\
    (forall seen,
        (forall x, x ∈ seen -> (x < w_created w)%nat) ->
        exists seen',
          engine_run (None, seen) evs = Some (None, seen') /\
          (forall x, x ∈ seen' -> (x < w_created w')%nat)).

(** What one invocation of [do_sign_node] does to the world. *)
Record sign_effect (key_file : string) (tab : list xpathNode)
    (w w' : World Env) (rc : Z) : Prop := {
  se_status : rc = 0 \/ rc = -1;
  se_stderr : rc = 0 -> w_stderr w' = w_stderr w;
  se_stdout : doc_dumps (w_stdout w') = doc_dumps (w_stdout w);
  se_created : (w_created w <= w_created w')%nat;
  se_engine : engine_effect key_file tab w w'
}.

(** The end of [sign_file]: the loop, then the dump of the document
    when the loop succeeded. *)
Definition sign_and_dump (key_file : string) (tab : list xpathNode)
    (doc : xmlDoc) (w : World Env) : Z * World Env :=
  let '(rc, doc2, w2) := sign_nodes L key_file tab doc w in
  if rc <? 0 then (-1, w2) else (0, log_out w2 [OutDocDump doc2]).

(** The world in which [main] calls [sign_file]: the four initialisation
    calls have run. *)
Definition initialised (w : World Env) : World Env :=
  let e1 := (xmlSecInit L (w_env w)).2 in
  let e2 := (xmlSecCheckVersion L e1).2 in
  let e3 := (xmlSecCryptoAppInit L e2).2 in
  let e4 := (xmlSecCryptoInit L e3).2 in
  put_env w e4.

(** Full success: three arguments, every initialisation step passes and
    [sign_file] answers 0. *)
Definition full_success (argc : Z) (argv : list string) (w : World Env) : Prop :=
  let e1 := (xmlSecInit L (w_env w)).2 in
  let e2 := (xmlSecCheckVersion L e1).2 in
  let e3 := (xmlSecCryptoAppInit L e2).2 in
  argc = 3 /\
  0 <= (xmlSecInit L (w_env w)).1 /\
  (xmlSecCheckVersion L e1).1 = 1 /\
  0 <= (xmlSecCryptoAppInit L e2).1 /\
  0 <= (xmlSecCryptoInit L e3).1 /\
  (sign_file L (List.nth 1 argv "") (List.nth 2 argv "") (initialised w)).1 = 0.

End Vocabulary.

(** ** Vocabulary of the further statements *)

(** A binding as it stands in a list: the number of spaces before it, its
    prefix and its href. *)
Record ns_binding := mkBinding {
  b_pad : nat;
  b_prefix : list xmlChar;
  b_href : list xmlChar
}.

Definition render_binding (b : ns_binding) : list xmlChar :=
  replicate (b_pad b) " "%char ++ b_prefix b ++ "="%char :: b_href b.

(** The bindings written one after the other, a single space closing each
    href but the last. *)
Fixpoint render_bindings (bs : list ns_binding) : list xmlChar :=
  match bs with
  | [] => []
  | b :: bs' =>
      match bs' with
      | [] => render_binding b
      | _ :: _ => render_binding b ++ " "%char :: render_bindings bs'
      end
  end.

(** The prefix does not begin with a space and has no [=]; the href has
    no space. *)
Definition well_formed_binding (b : ns_binding) : Prop :=
  match b_prefix b with
  | c :: _ => is_space c = false
  | [] => True
  end /\
  ("="%char ∉ b_prefix b) /\
  (" "%char ∉ b_href b).

(** The registration calls for a sequence of bindings, in order, up to
    the first call that fails. *)
Fixpoint register_all
    (reg : xmlXPathContext -> string -> string -> Z * xmlXPathContext)
    (xpathCtx : xmlXPathContext) (bs : list ns_binding)
    : Z * xmlXPathContext * list diag :=
  match bs with
  | [] => (0, xpathCtx, [])
  | b :: bs' =>
      let prefix := of_c (b_prefix b) in
      let href := of_c (b_href b) in
      let '(rc, ctx') := reg xpathCtx prefix href in
      if negb (rc =? 0) then (-1, ctx', [E_register_ns prefix href])
      else register_all reg ctx' bs'
  end.

(** Lines of the query listing and debug dumps on stdout. *)
Definition is_listing_line (o : out_event) : bool :=
  match o with
  | OutNamespaceOfNsNode _ _ _ _ | OutNamespaceOfNode _ _ _
  | OutElementNs _ _ | OutElement _ | OutNode _ _ => true
  | _ => false
  end.

Definition is_debug_dump (o : out_event) : bool :=
  match o with
  | OutDSigCtxDebugDump _ => true
  | _ => false
  end.

(** Does the pointer of a table entry designate a node of the tree? *)
Definition entry_valid (doc : xmlDoc) (x : xpathNode) : Prop :=
  match x with
  | XPNode p => is_Some (deref doc p)
  | XPNamespace _ next => is_Some (deref doc next)
  end.

(** The document handed to the first signing call of a log. *)
Definition first_signed_doc (log : list engine_event) : option xmlDoc :=
  head (omap (fun ev => match ev with
                        | EvSign _ d _ => Some d
                        | _ => None
                        end) log).

(** The contexts created in a log. *)
Definition created_contexts (log : list engine_event) : list nat :=
  omap (fun ev => match ev with EvCreate h => Some h | _ => None end) log.

(** The contexts destroyed in a log. *)
Definition destroyed_contexts (log : list engine_event) : list nat :=
  omap (fun ev => match ev with EvDestroy h => Some h | _ => None end) log.

(** What the signing loop adds to the three streams of the world between
    [w] and [w'], with the status [rc] and the documents before and after. *)
Definition loop_effect {Env : Type} (doc doc' : xmlDoc)
    (w w' : World Env) (rc : Z) : Prop :=
  exists out err evs,
    w_stdout w' = w_stdout w ++ out /\
    w_stderr w' = w_stderr w ++ err /\
    w_engine w' = w_engine w ++ evs /\
    forallb is_debug_dump out = true /\
    (rc = 0 \/ rc = -1) /\
    (rc = 0 -> err = [] /\
               length out = length (created_contexts evs) /\
               length (sign_targets evs) = length (created_contexts evs)) /\
    (rc = -1 -> last err = Some E_sign_node) /\
    w_created w' = (w_created w + length (created_contexts evs))%nat /\
    created_contexts evs = destroyed_contexts evs /\
    created_contexts evs
    = seq (w_created w) (length (created_contexts evs)) /\
    match first_signed_doc evs with
    | Some d => d = doc
    | None => doc' = doc
    end.

(** The libraries [L] with another answer of [xmlSecCheckVersion]. *)
Definition with_version {Env : Type} (L : Libs Env) (v : Z) : Libs Env :=
  mkLibs Env (xmlSecNodeSignature L) (xmlSecDSigNs L) (xmlReadFile L)
    (xmlNodeListGetString L) (xmlAddID L) (xmlXPathNewContext L)
    (xmlXPathRegisterNs L) (xmlXPathEvalExpression L) (alloc_dsig_ctx L)
    (xmlSecCryptoAppKeyLoadEx L) (xmlSecKeySetName L) (xmlSecDSigCtxSign L)
    (xmlSecInit L) (fun e => (v, e)) (xmlSecCryptoAppInit L)
    (xmlSecCryptoInit L).

(** The document of the sample template once both identifiers are
    registered. *)
Definition sample_registered_template : xmlDoc :=
  mkDoc (doc_root Sample.template)
    (Sample.add_id (Sample.add_id ∅ "certs1" ([0%nat], "id"))
       "cert1" ([0%nat; 0%nat], "id")).

(** ** Vocabulary of the statements on a whole run *)

(** The engine calls of an invocation of [do_sign_node] that signs:
    [xmlSecDSigCtxCreate], [xmlSecCryptoAppKeyLoadEx], [xmlSecKeySetName],
    [xmlSecDSigCtxSign], [xmlSecDSigCtxDebugDump], [xmlSecDSigCtxDestroy],
    all on the context [h]. *)
Definition signed_block (h : nat) (key_file : string) (d : xmlDoc)
    (p : xmlNodePtr) : list engine_event :=
  [EvCreate h; EvLoadKey h key_file; EvSetName h key_file; EvSign h d p;
   EvDebugDump h; EvDestroy h].

(** The engine calls of an invocation that fails, by the diagnostic it
    writes: none when the context could not be created, otherwise the
    calls up to the one that failed and the destruction of the context. *)
Definition failed_block (h : nat) (key_file : string) (d : xmlDoc)
    (p : xmlNodePtr) (msg : diag) : list engine_event :=
  match msg with
  | E_load_key _ => [EvCreate h; EvLoadKey h key_file; EvDestroy h]
  | E_set_key_name _ =>
      [EvCreate h; EvLoadKey h key_file; EvSetName h key_file; EvDestroy h]
  | E_signature_failed =>
      [EvCreate h; EvLoadKey h key_file; EvSetName h key_file; EvSign h d p;
       EvDestroy h]
  | _ => []
  end.


(** One [signed_block] after the other, for the nodes of [steps] (each
    with the document it is signed in), on the contexts [h], [h+1], ... *)
Fixpoint engine_blocks (h : nat) (key_file : string)
    (steps : list (xmlDoc * xmlNodePtr)) : list engine_event :=
  match steps with
  | [] => []
  | (d, p) :: rest =>
      signed_block h key_file d p ++ engine_blocks (S h) key_file rest
  end.





(** Diagnostics other than the one of a node that was not found. *)
Definition not_find_node (msg : diag) : bool :=
  match msg with
  | E_find_node _ => false
  | _ => true
  end.

(** A container whose [id] attribute has the empty string as its value
    ([id=""]), and its certificate. *)
Definition template_empty_id : xmlDoc :=
  mkDoc (Some (Sample.elem "doc" None []
    [ Sample.elem "certificates" Sample.certs_ns [mkAttr "id" [""]]
        [ Sample.elem "certificate" Sample.certs_ns [mkAttr "id" ["cert1"]] [] ];
      Sample.elem "Signature" Sample.sig_ns [] [] ])) ∅.

(** An attribute node without children, and the libraries of the sample
    with an [xmlNodeListGetString] that returns NULL. *)
Definition template_no_value : xmlDoc :=
  mkDoc (Some (Sample.elem "doc" None []
    [ Sample.elem "certificates" Sample.certs_ns [mkAttr "id" []] [] ])) ∅.

Definition with_unreadable_values {Env : Type} (L : Libs Env) : Libs Env :=
  mkLibs Env (xmlSecNodeSignature L) (xmlSecDSigNs L) (xmlReadFile L)
    (fun _ _ => None) (xmlAddID L) (xmlXPathNewContext L)
    (xmlXPathRegisterNs L) (xmlXPathEvalExpression L) (alloc_dsig_ctx L)
    (xmlSecCryptoAppKeyLoadEx L) (xmlSecKeySetName L) (xmlSecDSigCtxSign L)
    (xmlSecInit L) (xmlSecCheckVersion L) (xmlSecCryptoAppInit L)
    (xmlSecCryptoInit L).

(** * Properties *)

(** ** The namespace-list parser *)

Lemma is_space_true c : is_space c = true <-> c = " "%char.
Proof. unfold is_space. apply Ascii.eqb_eq. Qed.

Lemma is_space_false c : is_space c = false <-> c <> " "%char.
Proof. unfold is_space. apply Ascii.eqb_neq. Qed.

Lemma skip_spaces_all_spaces next :
  Forall (fun c => c = " "%char) next -> skip_spaces next = [].
Proof.
  induction 1 as [|c rest Hc _ IH]; simpl; [done|].
  apply is_space_true in Hc. by rewrite Hc.
Qed.

Lemma skip_spaces_no_space c rest :
  is_space c = false -> skip_spaces (c :: rest) = c :: rest.
Proof. intros H. simpl. by rewrite H. Qed.

(** What [skip_spaces] leaves is a suffix of what it was given. *)
Lemma skip_spaces_suffix next : skip_spaces next `suffix_of` next.
Proof.
  induction next as [|c rest IH]; simpl; [done|].
  destruct (is_space c); [by apply suffix_cons_r | done].
Qed.

Lemma skip_spaces_app pre rest :
  skip_spaces pre <> [] -> skip_spaces (pre ++ rest) = skip_spaces pre ++ rest.
Proof.
  induction pre as [|c pre IH]; simpl; [done|].
  destruct (is_space c); auto.
Qed.

Lemma skip_spaces_app_nil pre rest :
  skip_spaces pre = [] -> skip_spaces (pre ++ rest) = skip_spaces rest.
Proof.
  induction pre as [|c pre IH]; simpl; [done|].
  destruct (is_space c); [auto | discriminate].
Qed.

Lemma xmlStrchr_None str val : xmlStrchr str val = None <-> val ∉ str.
Proof.
  induction str as [|c rest IH]; simpl.
  - split; [intros _; apply not_elem_of_nil | done].
  - destruct (Ascii.eqb c val) eqn:E.
    + apply Ascii.eqb_eq in E as ->. split; [discriminate|].
      intros H. exfalso. apply H. left.
    + apply Ascii.eqb_neq in E. rewrite not_elem_of_cons.
      destruct (xmlStrchr rest val); split; try discriminate; try tauto.
      * intros [_ H]. apply IH in H. discriminate.
      * intros _. split; [congruence | by apply IH].
Qed.

Lemma xmlStrchr_Some str val i :
  xmlStrchr str val = Some i -> str !! i = Some val /\ val ∉ take i str.
Proof.
  revert i. induction str as [|c rest IH]; intros i; simpl; [discriminate|].
  destruct (Ascii.eqb c val) eqn:E.
  - apply Ascii.eqb_eq in E as ->. intros [= <-]. split; [done|].
    simpl. apply not_elem_of_nil.
  - apply Ascii.eqb_neq in E.
    destruct (xmlStrchr rest val) as [j|]; [|discriminate].
    intros [= <-]. destruct (IH j eq_refl) as [H1 H2]. split; [done|].
    simpl. rewrite not_elem_of_cons. split; [congruence | done].
Qed.

Lemma xmlStrchr_app_l s1 s2 val :
  val ∈ s1 -> xmlStrchr (s1 ++ s2) val = xmlStrchr s1 val.
Proof.
  induction s1 as [|c s1 IH]; simpl.
  - intros H. by apply elem_of_nil in H.
  - destruct (Ascii.eqb c val) eqn:E; [done|].
    apply Ascii.eqb_neq in E. rewrite elem_of_cons.
    intros [->|H]; [done|]. by rewrite IH.
Qed.

Lemma xmlStrchr_app_r s1 s2 val :
  val ∉ s1 ->
  xmlStrchr (s1 ++ s2) val = (fun i => (length s1 + i)%nat) <$> xmlStrchr s2 val.
Proof.
  induction s1 as [|c s1 IH]; simpl.
  - intros _. by destruct (xmlStrchr s2 val).
  - rewrite not_elem_of_cons. intros [Hc H].
    destruct (Ascii.eqb c val) eqn:E.
    + apply Ascii.eqb_eq in E. congruence.
    + rewrite IH by done. by destruct (xmlStrchr s2 val).
Qed.

Lemma last_drop_lt {A} (l : list A) k :
  (k < length l)%nat -> last (drop k l) = last l.
Proof.
  intros Hk. rewrite !last_lookup, lookup_drop, length_drop. f_equal. lia.
Qed.

Section NamespaceFacts.

Variable xmlXPathRegisterNs :
  xmlXPathContext -> string -> string -> Z * xmlXPathContext.

Abbreviation loop := (register_namespaces_loop xmlXPathRegisterNs).

(** One turn of the loop, as the C text reads. *)
Lemma register_namespaces_loop_body next xpathCtx :
  loop next xpathCtx =
  match skip_spaces next with
  | [] => (0, xpathCtx, [])
  | s =>
      match xmlStrchr s "="%char with
      | None => (-1, xpathCtx, [E_ns_list_format])
      | Some i =>
          let prefix := of_c (take i s) in
          match xmlStrchr (drop (S i) s) " "%char with
          | None =>
              let href := of_c (drop (S i) s) in
              let '(rc, ctx') := xmlXPathRegisterNs xpathCtx prefix href in
              if negb (rc =? 0) then (-1, ctx', [E_register_ns prefix href])
              else (0, ctx', [])
          | Some j =>
              let href := of_c (take j (drop (S i) s)) in
              let '(rc, ctx') := xmlXPathRegisterNs xpathCtx prefix href in
              if negb (rc =? 0) then (-1, ctx', [E_register_ns prefix href])
              else loop (drop (S j) (drop (S i) s)) ctx'
          end
      end
  end.
Proof.
  funelim (register_namespaces_loop xmlXPathRegisterNs next xpathCtx);
    repeat match goal with
           | E : ?l = _ |- context [match ?l with _ => _ end] => rewrite E
           end; reflexivity.
Qed.

(** The same turn when something is left after the spaces. *)
Lemma register_namespaces_loop_turn next s xpathCtx :
  skip_spaces next = s -> s <> [] ->
  loop next xpathCtx =
  match xmlStrchr s "="%char with
  | None => (-1, xpathCtx, [E_ns_list_format])
  | Some i =>
      match xmlStrchr (drop (S i) s) " "%char with
      | None =>
          let '(rc, ctx') :=
            xmlXPathRegisterNs xpathCtx (of_c (take i s)) (of_c (drop (S i) s)) in
          if negb (rc =? 0)
          then (-1, ctx', [E_register_ns (of_c (take i s)) (of_c (drop (S i) s))])
          else (0, ctx', [])
      | Some j =>
          let '(rc, ctx') :=
            xmlXPathRegisterNs xpathCtx (of_c (take i s))
              (of_c (take j (drop (S i) s))) in
          if negb (rc =? 0)
          then (-1, ctx',
                [E_register_ns (of_c (take i s)) (of_c (take j (drop (S i) s)))])
          else loop (drop (S j) (drop (S i) s)) ctx'
      end
  end.
Proof.
  intros Hs Hne. rewrite register_namespaces_loop_body, Hs.
  destruct s; [done|]. reflexivity.
Qed.

(** A list that ends inside a token without [=]: the loop answers -1,
    whatever was registered before. *)
Lemma loop_rejects_dangling_token n :
  forall pre c rest xpathCtx,
    (length pre <= n)%nat ->
    pre = [] \/ last pre = Some " "%char ->
    is_space c = false ->
    "="%char ∉ c :: rest ->
    (loop (pre ++ c :: rest) xpathCtx).1.1 = -1 /\
    ((forall x p h, (xmlXPathRegisterNs x p h).1 = 0) ->
     (loop (pre ++ c :: rest) xpathCtx).2 = [E_ns_list_format]).
Proof.
  induction n as [n IH] using lt_wf_ind.
  intros pre c rest xpathCtx Hn Hpre Hc Heq.
  destruct (skip_spaces pre) as [|c1 pre1] eqn:Hskip.
  - (* only spaces before the token *)
    rewrite (register_namespaces_loop_turn _ (c :: rest)); [|
      by rewrite (skip_spaces_app_nil _ _ Hskip), (skip_spaces_no_space _ _ Hc) | done].
    apply xmlStrchr_None in Heq. by rewrite Heq.
  - (* a binding starts before the token *)
    set (s1 := c1 :: pre1) in *.
    rewrite (register_namespaces_loop_turn _ (s1 ++ c :: rest)); [|
      rewrite skip_spaces_app by (rewrite Hskip; done); by rewrite Hskip | done].
    pose proof (skip_spaces_suffix pre) as [junk Hsplit].
    rewrite Hskip in Hsplit. fold s1 in Hsplit.
    assert (Hlast : last s1 = Some " "%char).
    { destruct Hpre as [->|Hpre]; [discriminate|].
      rewrite Hsplit in Hpre. unfold s1 in Hpre. by rewrite last_app_cons in Hpre. }
    assert (Hlen1 : (length s1 <= length pre)%nat).
    { rewrite Hsplit, length_app. lia. }
    destruct (xmlStrchr (s1 ++ c :: rest) "="%char) as [i|] eqn:Ei; [|done].
    (* the [=] lies before the token *)
    assert (Hin : "="%char ∈ s1).
    { destruct (decide ("="%char ∈ s1)) as [?|Hno]; [done|].
      rewrite (xmlStrchr_app_r _ _ _ Hno) in Ei.
      apply xmlStrchr_None in Heq. rewrite Heq in Ei. discriminate. }
    rewrite (xmlStrchr_app_l _ _ _ Hin) in Ei.
    pose proof (xmlStrchr_lt _ _ _ Ei) as Hi.
    apply xmlStrchr_Some in Ei as [Hat _].
    assert (HSi : (S i < length s1)%nat).
    { destruct (decide (S i = length s1)) as [E|]; [|lia].
      rewrite last_lookup in Hlast. rewrite <- E in Hlast. simpl in Hlast.
      rewrite Hat in Hlast. discriminate. }
    rewrite drop_app_le by lia. rewrite take_app_le by lia.
    set (pre2 := drop (S i) s1).
    assert (Hlast2 : last pre2 = Some " "%char).
    { unfold pre2. rewrite last_drop_lt by lia. done. }
    assert (Hsp : " "%char ∈ pre2).
    { rewrite last_lookup in Hlast2. by eapply list_elem_of_lookup_2. }
    rewrite (xmlStrchr_app_l _ _ _ Hsp).
    destruct (xmlStrchr pre2 " "%char) as [j|] eqn:Ej.
    2:{ apply xmlStrchr_None in Ej. done. }
    pose proof (xmlStrchr_lt _ _ _ Ej) as Hj.
    destruct (xmlXPathRegisterNs xpathCtx _ _) as [rc ctx'] eqn:Ereg.
    destruct (rc =? 0) eqn:Erc; simpl.
    2:{ split; [done|]. intros Hok. specialize (Hok xpathCtx
          (of_c (take i s1)) (of_c (take j (pre2 ++ c :: rest)))).
        rewrite Ereg in Hok. simpl in Hok. subst rc. discriminate. }
    rewrite drop_app_le by lia.
    assert (Hlen2 : (length (drop (S j) pre2) < length pre)%nat).
    { rewrite length_drop. unfold pre2. rewrite length_drop. lia. }
    eapply (IH (length (drop (S j) pre2))); try done; [lia|].
    destruct (decide (S j = length pre2)) as [E|Hne].
    + left. apply nil_length_inv. rewrite length_drop. lia.
    + right. rewrite last_drop_lt by lia. done.
Qed.

(** C9.  A binding list that is empty or made of spaces only: the parser
    answers 0, makes no registration call, so the context is the one it
    was given, and writes no diagnostic. *)
Theorem register_namespaces_blank_list xpathCtx nsList :
  Forall (fun c => c = " "%char) nsList ->
  register_namespaces xmlXPathRegisterNs xpathCtx nsList = (0, xpathCtx, []).
Proof.
  intros Hblank. unfold register_namespaces, xmlStrdup.
  rewrite register_namespaces_loop_body.
  by rewrite (skip_spaces_all_spaces _ Hblank).
Qed.

(** C4.  A binding list with a non-empty token (it starts the list or
    follows a space, and its first character [c] is not a space) such that
    no [=] occurs from the start of the token to the end of the list is
    rejected: the status is -1.  When no registration fails on the way,
    the diagnostic is the one of a malformed list. *)
Theorem register_namespaces_rejects_token_without_equals xpathCtx pre c rest :
  pre = [] \/ last pre = Some " "%char ->
  is_space c = false ->
  "="%char ∉ c :: rest ->
  (register_namespaces xmlXPathRegisterNs xpathCtx (pre ++ c :: rest)).1.1 = -1 /\
  ((forall x p h, (xmlXPathRegisterNs x p h).1 = 0) ->
   (register_namespaces xmlXPathRegisterNs xpathCtx (pre ++ c :: rest)).2
   = [E_ns_list_format]).
Proof.
  intros Hpre Hc Heq. unfold register_namespaces, xmlStrdup.
  by apply (loop_rejects_dangling_token (length pre)).
Qed.

(** C10.  The search for [=] is not bounded by the token: when the first
    token [c :: tok] has no [=], and after a space and further characters
    [mid] without [=] a later token has one, the parser makes one
    registration call whose prefix is everything before that [=], the
    space included, and whose href is what follows; the outcome of the
    list is the outcome of that call, not a malformed-list rejection. *)
Theorem register_namespaces_prefix_spans_tokens xpathCtx c tok mid href :
  is_space c = false ->
  "="%char ∉ c :: tok ->
  "="%char ∉ mid ->
  " "%char ∉ href ->
  register_namespaces xmlXPathRegisterNs xpathCtx
    (c :: tok ++ " "%char :: mid ++ "="%char :: href) =
  let prefix := of_c (c :: tok ++ " "%char :: mid) in
  let '(rc, ctx') := xmlXPathRegisterNs xpathCtx prefix (of_c href) in
  if negb (rc =? 0) then (-1, ctx', [E_register_ns prefix (of_c href)])
  else (0, ctx', []).
Proof.
  intros Hc Htok Hmid Hhref. unfold register_namespaces, xmlStrdup.
  set (p := c :: tok ++ " "%char :: mid).
  assert (Hp : "="%char ∉ p).
  { unfold p. rewrite app_comm_cons. intros [H|H]%elem_of_app; [done|].
    apply elem_of_cons in H as [H|H]; [discriminate | done]. }
  replace (c :: tok ++ " "%char :: mid ++ "="%char :: href)
    with (p ++ "="%char :: href)
    by (unfold p; simpl; by rewrite <- app_assoc).
  rewrite (register_namespaces_loop_turn _ (p ++ "="%char :: href));
    [| by apply skip_spaces_no_space | done].
  rewrite (xmlStrchr_app_r _ _ _ Hp). cbn [xmlStrchr Ascii.eqb Bool.eqb fmap option_fmap option_map].
  rewrite Nat.add_0_r.
  replace (S (length p)) with (length (p ++ ["="%char]))
    by (rewrite length_app; simpl; lia).
  replace (p ++ "="%char :: href) with ((p ++ ["="%char]) ++ href)
    by (by rewrite <- app_assoc).
  rewrite drop_app_length.
  replace (length (p ++ ["="%char])) with (S (length p))
    by (rewrite length_app; simpl; lia).
  rewrite <- app_assoc. rewrite take_app_length.
  apply xmlStrchr_None in Hhref. rewrite Hhref. reflexivity.
Qed.

End NamespaceFacts.

Lemma register_namespaces_blank_list_witness :
  Forall (fun c => c = " "%char) (to_c "   ") /\
  register_namespaces Sample.register_ns (mkXPathContext ∅) (to_c "   ")
  = (0, mkXPathContext ∅, []).
Proof.
  assert (H : Forall (fun c => c = " "%char) (to_c "   ")).
  { repeat constructor. }
  split; [exact H|].
  exact (register_namespaces_blank_list Sample.register_ns _ _ H).
Defined.

Lemma register_namespaces_rejects_token_without_equals_witness :
  (@nil ascii = [] \/ last (@nil ascii) = Some " "%char) /\
  is_space "s" = false /\
  ("="%char ∉ to_c "sig http://example") /\
  (register_namespaces Sample.register_ns (mkXPathContext ∅)
     (to_c "sig http://example")).1.1 = -1.
Proof.
  assert (H1 : @nil ascii = [] \/ last [] = Some " "%char) by (by left).
  assert (H2 : is_space "s" = false) by reflexivity.
  assert (H3 : "="%char ∉ to_c "sig http://example").
  { apply xmlStrchr_None. reflexivity. }
  split; [exact H1|]. split; [exact H2|]. split; [exact H3|].
  exact (proj1 (register_namespaces_rejects_token_without_equals
                  Sample.register_ns (mkXPathContext ∅) [] "s"%char
                  (to_c "ig http://example") H1 H2 H3)).
Defined.

Lemma register_namespaces_prefix_spans_tokens_witness :
  is_space "a" = false /\
  ("="%char ∉ to_c "a") /\
  ("="%char ∉ to_c "b") /\
  (" "%char ∉ to_c "c") /\
  register_namespaces Sample.register_ns (mkXPathContext ∅) (to_c "a b=c")
  = (0, mkXPathContext {["a b" := "c"]}, []).
Proof.
  assert (H1 : is_space "a" = false) by reflexivity.
  assert (H2 : "="%char ∉ to_c "a") by (apply xmlStrchr_None; reflexivity).
  assert (H3 : "="%char ∉ to_c "b") by (apply xmlStrchr_None; reflexivity).
  assert (H4 : " "%char ∉ to_c "c") by (apply xmlStrchr_None; reflexivity).
  split; [exact H1|]. split; [exact H2|]. split; [exact H3|]. split; [exact H4|].
  exact (register_namespaces_prefix_spans_tokens Sample.register_ns
           (mkXPathContext ∅) "a"%char [] (to_c "b") (to_c "c") H1 H2 H3 H4).
Defined.

(** The parser writes a diagnostic only when it fails, and its status is
    0 or -1. *)
Lemma register_namespaces_loop_status reg n :
  forall next xpathCtx,
    (length next <= n)%nat ->
    ((register_namespaces_loop reg next xpathCtx).1.1 = 0 /\
     (register_namespaces_loop reg next xpathCtx).2 = []) \/
    (register_namespaces_loop reg next xpathCtx).1.1 = -1.
Proof.
  induction n as [n IH] using lt_wf_ind. intros next xpathCtx Hn.
  rewrite register_namespaces_loop_body.
  pose proof (skip_spaces_length next) as Hskip.
  destruct (skip_spaces next) as [|c r]; [by left|].
  cbv zeta.
  assert (Hlen : (0 < length (c :: r) <= length next)%nat) by (simpl in *; lia).
  revert Hlen. generalize (c :: r). clear Hskip. intros s Hlen.
  destruct (xmlStrchr s "="%char) as [i|]; [|by right].
  destruct (xmlStrchr (drop (S i) s) " "%char) as [j|].
  - destruct (reg xpathCtx _ _) as [rc ctx']. destruct (rc =? 0); simpl; [|by right].
    apply (IH (length (drop (S j) (drop (S i) s)))); [|done].
    rewrite !length_drop. lia.
  - destruct (reg xpathCtx _ _) as [rc ctx']. destruct (rc =? 0); simpl; [by left|by right].
Qed.

Lemma register_namespaces_status reg xpathCtx l :
  ((register_namespaces reg xpathCtx l).1.1 = 0 /\
   (register_namespaces reg xpathCtx l).2 = []) \/
  (register_namespaces reg xpathCtx l).1.1 = -1.
Proof.
  unfold register_namespaces, xmlStrdup.
  by apply (register_namespaces_loop_status reg (length l)).
Qed.

(** ** The locator *)

Lemma xmlNode_tree_ind (P : xmlNode -> Prop) :
  (forall t name ns props cs, Forall P cs -> P (mkNode t name ns props cs)) ->
  forall n, P n.
Proof.
  intros Hnode. fix IH 1. intros [t name ns props cs]. apply Hnode.
  induction cs as [|c cs IHcs]; constructor; [apply IH | exact IHcs].
Qed.

(** The search from a node finds nothing exactly when no node at or below
    it matches. *)
Lemma find_preorder_None name ns n :
  find_preorder name ns n = None <->
  forall p m, node_at n p = Some m -> node_matches m name ns = false.
Proof.
  induction n as [t nm nns props cs IH] using xmlNode_tree_ind.
  simpl. destruct (node_matches (mkNode t nm nns props cs) name ns) eqn:Ehere.
  { split; [discriminate|]. intros H. specialize (H [] _ eq_refl). congruence. }
  assert (Hkids : forall i,
    (fix in_children (cs0 : list xmlNode) (i0 : nat) : option xmlNodePtr :=
       match cs0 with
       | [] => None
       | c :: cs' =>
           match find_preorder name ns c with
           | Some p => Some (i0 :: p)
           | None => in_children cs' (S i0)
           end
       end) cs i = None <->
    Forall (fun c => find_preorder name ns c = None) cs).
  { clear Ehere. induction cs as [|c cs IHcs]; intros i.
    - split; [constructor | done].
    - apply Forall_cons in IH as [IHc IHrest]. specialize (IHcs IHrest).
      simpl. destruct (find_preorder name ns c) eqn:Ec.
      + split; [discriminate|]. intros H. apply Forall_cons in H as [H _].
        congruence.
      + rewrite IHcs. split; [by constructor|].
        intros H. by apply Forall_cons in H as [_ H]. }
  rewrite Hkids. split.
  - intros Hall [|i p] m Hat; simpl in Hat.
    + by injection Hat as <-.
    + destruct (cs !! i) as [c|] eqn:Ei; [|discriminate].
      rewrite Forall_forall in Hall, IH.
      assert (Hc : c ∈ cs) by (by eapply list_elem_of_lookup_2).
      apply (proj1 (IH c Hc) (Hall c Hc) p m Hat).
  - intros Hnone. rewrite Forall_forall in *. intros c Hc.
    apply (proj2 (IH c Hc)). intros p m Hat.
    apply list_elem_of_lookup_1 in Hc as [i Hi].
    apply (Hnone (i :: p) m). simpl. by rewrite Hi.
Qed.

Lemma xmlSecFindNode_root_None doc name ns :
  xmlDocGetRootElement doc <> None ->
  (xmlSecFindNode doc [] name ns = None <->
   forall p m, deref doc p = Some m -> node_matches m name ns = false).
Proof.
  unfold xmlDocGetRootElement, xmlSecFindNode, deref.
  destruct (doc_root doc) as [r|]; [intros _ | done]. simpl.
  rewrite <- find_preorder_None.
  by destruct (find_preorder name ns r).
Qed.

(** ** Identifier registration *)

Lemma doc_dumps_app o1 o2 : doc_dumps (o1 ++ o2) = doc_dumps o1 ++ doc_dumps o2.
Proof. unfold doc_dumps. apply omap_app. Qed.

Section DriverFacts.

Context {Env : Type} (L : Libs Env).

Lemma RegisterID_cases doc node idName (w : World Env) :
  (exists attr name,
      xmlHasProp doc node idName = Some attr /\
      attr_children attr <> [] /\
      xmlNodeListGetString L doc (attr_children attr) = Some name /\
      RegisterID L doc node idName w =
      (0, mkDoc (doc_root doc)
            (xmlAddID L (doc_ids doc) name (node, attr_name attr)), w)) \/
  (exists d,
      RegisterID L doc node idName w = (-1, doc, log_err w [d]) /\
      match xmlHasProp doc node idName with
      | None => True
      | Some attr =>
          attr_children attr = [] \/
          xmlNodeListGetString L doc (attr_children attr) = None
      end).
Proof.
  unfold RegisterID.
  destruct (xmlHasProp doc node idName) as [attr|]; [|right; eauto].
  destruct (attr_children attr) as [|t ts] eqn:Ech; [right; eauto|].
  destruct (xmlNodeListGetString L doc (t :: ts)) as [name|] eqn:Es.
  - left. exists attr, name. rewrite Ech. repeat split; try done.
  - right. eauto.
Qed.

Lemma xmlSecFindNode_root doc doc' parent name ns :
  doc_root doc' = doc_root doc ->
  xmlSecFindNode doc' parent name ns = xmlSecFindNode doc parent name ns.
Proof. intros H. unfold xmlSecFindNode, deref. by rewrite H. Qed.

Lemma engine_run_app st l1 l2 :
  engine_run st (l1 ++ l2) =
  match engine_run st l1 with
  | Some st' => engine_run st' l2
  | None => None
  end.
Proof.
  revert st. induction l1 as [|ev l1 IH]; intros st; simpl; [done|].
  destruct (engine_step st ev); [apply IH | done].
Qed.

Lemma sign_targets_app l1 l2 :
  sign_targets (l1 ++ l2) = sign_targets l1 ++ sign_targets l2.
Proof. unfold sign_targets. apply omap_app. Qed.

Lemma existsb_eqb_fresh h seen :
  (forall x, x ∈ seen -> (x < h)%nat) -> existsb (Nat.eqb h) seen = false.
Proof.
  intros Hseen. apply not_true_is_false. intros (x & Hin & Hx)%existsb_exists.
  apply Nat.eqb_eq in Hx as <-. apply list_elem_of_In, Hseen in Hin. lia.
Qed.

(** Membership in an explicit log, one entry after the other. *)
Ltac in_log H :=
  repeat (apply elem_of_cons in H as [H|H]; [by simplify_eq|]);
  by apply elem_of_nil in H.

Lemma do_sign_node_effect doc node key_file (w : World Env) :
  is_element doc (XPNode node) = true ->
  sign_effect key_file [XPNode node] w
    (do_sign_node L doc node key_file w).2
    (do_sign_node L doc node key_file w).1.1.
Proof.
  intros Helem. unfold do_sign_node, xmlSecDSigCtxCreate.
  destruct (alloc_dsig_ctx L (w_env w)) as [created e1].
  destruct created; simpl.
  2:{ split; unfold engine_effect; simpl; try (by auto); try lia; try discriminate.
      exists []. rewrite app_nil_r. repeat split; try done.
      - apply sublist_nil_l.
      - intros ??? H. by apply elem_of_nil in H.
      - intros ?? H. by apply elem_of_nil in H.
      - intros seen Hseen. by exists seen. }
  destruct (xmlSecCryptoAppKeyLoadEx L key_file e1) as [key e2].
  destruct key as [k|]; simpl.
  2:{ split; unfold engine_effect; simpl; try (by auto); try lia; try discriminate.
      eexists. split; [by rewrite <- !app_assoc|]. simpl. repeat split.
      - apply sublist_nil_l.
      - intros ??? H. in_log H.
      - intros ?? H. in_log H.
      - intros seen Hseen. rewrite existsb_eqb_fresh by done.
        rewrite !Nat.eqb_refl. eexists; split; [done|].
        intros x [->|Hx]%elem_of_cons; [lia|]. apply Hseen in Hx. lia. }
  destruct (xmlSecKeySetName L k key_file e2) as [rc1 e3].
  destruct (rc1 <? 0); simpl.
  { split; unfold engine_effect; simpl; try (by auto); try lia; try discriminate.
    eexists. split; [by rewrite <- !app_assoc|]. simpl. repeat split.
    - apply sublist_nil_l.
    - intros ??? H. in_log H.
    - intros ?? H. in_log H.
    - intros seen Hseen. rewrite existsb_eqb_fresh by done.
      rewrite !Nat.eqb_refl. eexists; split; [done|].
      intros x [->|Hx]%elem_of_cons; [lia|]. apply Hseen in Hx. lia. }
  destruct (xmlSecDSigCtxSign L _ doc node e3) as [[rc2 doc'] e4].
  destruct (rc2 <? 0); simpl.
  { split; unfold engine_effect; simpl; try (by auto); try lia; try discriminate.
    eexists. split; [by rewrite <- !app_assoc|]. simpl. repeat split.
    - done.
    - intros ??? H. in_log H.
    - intros ?? H. in_log H.
    - intros seen Hseen. rewrite existsb_eqb_fresh by done.
      rewrite !Nat.eqb_refl. eexists; split; [done|].
      intros x [->|Hx]%elem_of_cons; [lia|]. apply Hseen in Hx. lia. }
  split; unfold engine_effect; simpl; try (by auto); try lia.
  - rewrite doc_dumps_app. simpl. by rewrite app_nil_r.
  - eexists. split; [by rewrite <- !app_assoc|]. simpl. repeat split.
    + done.
    + intros ??? H. in_log H.
    + intros ?? H. in_log H.
    + intros seen Hseen. rewrite existsb_eqb_fresh by done.
      rewrite !Nat.eqb_refl. eexists; split; [done|].
      intros x [->|Hx]%elem_of_cons; [lia|]. apply Hseen in Hx. lia.
Qed.

Lemma sign_effect_refl key_file tab (w : World Env) :
  sign_effect key_file tab w w 0.
Proof.
  split; try (by auto).
  exists []. rewrite app_nil_r. repeat split; try done.
  - apply sublist_nil_l.
  - intros ??? H. by apply elem_of_nil in H.
  - intros ?? H. by apply elem_of_nil in H.
  - intros seen Hseen. by exists seen.
Qed.

Lemma sign_effect_seq key_file t1 t2 (w w1 w2 : World Env) rc :
  sign_effect key_file t1 w w1 0 ->
  sign_effect key_file t2 w1 w2 rc ->
  sign_effect key_file (t1 ++ t2) w w2 rc.
Proof.
  intros [_ Herr1 Hout1 Hc1 (evs1 & Hlog1 & Hsub1 & Hel1 & Hkey1 & Hrun1)]
         [Hst Herr2 Hout2 Hc2 (evs2 & Hlog2 & Hsub2 & Hel2 & Hkey2 & Hrun2)].
  split; try done.
  - intros Hrc. rewrite Herr2, Herr1; done.
  - by rewrite Hout2.
  - lia.
  - exists (evs1 ++ evs2). repeat split.
    + by rewrite Hlog2, Hlog1, app_assoc.
    + rewrite sign_targets_app. by apply sublist_app.
    + intros h d p [H|H]%elem_of_app; eauto.
    + intros h kf [H|H]%elem_of_app; eauto.
    + intros seen Hseen. destruct (Hrun1 seen Hseen) as (seen1 & Hr1 & Hs1).
      destruct (Hrun2 seen1 Hs1) as (seen2 & Hr2 & Hs2).
      exists seen2. by rewrite engine_run_app, Hr1.
Qed.

Lemma sign_effect_weaken key_file t1 t2 (w w' : World Env) rc :
  t1 `sublist_of` t2 ->
  sign_effect key_file t1 w w' rc -> sign_effect key_file t2 w w' rc.
Proof.
  intros Ht [Hst Herr Hout Hc (evs & Hlog & Hsub & Hrest)].
  split; try done. exists evs. split; [done|]. split; [|done].
  by etrans.
Qed.

Lemma sign_effect_skip key_file x tab (w w' : World Env) rc :
  sign_effect key_file tab w w' rc -> sign_effect key_file (x :: tab) w w' rc.
Proof. apply sign_effect_weaken. by apply sublist_cons. Qed.

Lemma sign_effect_abort key_file tab (w w' : World Env) d :
  sign_effect key_file tab w w' (-1) ->
  sign_effect key_file tab w (log_err w' d) (-1).
Proof.
  intros [Hst Herr Hout Hc Hev]. split; done.
Qed.

(** What the loop over the node table does to the world. *)
Lemma sign_nodes_effect key_file tab :
  forall doc (w : World Env),
    sign_effect key_file tab w
      (sign_nodes L key_file tab doc w).2
      (sign_nodes L key_file tab doc w).1.1.
Proof.
  induction tab as [|x rest IH]; intros doc w; simpl.
  - apply sign_effect_refl.
  - destruct x as [cur|ns next]; [|apply sign_effect_skip, IH].
    destruct (is_element doc (XPNode cur)) eqn:Helem;
      [|apply sign_effect_skip, IH].
    pose proof (do_sign_node_effect doc cur key_file w Helem) as Hone.
    destruct (do_sign_node L doc cur key_file w) as [[rc doc'] w'].
    simpl in Hone. destruct (se_status _ _ _ _ _ Hone) as [-> | ->]; simpl.
    + apply (sign_effect_seq _ [XPNode cur] rest _ w'); [done | apply IH].
    + apply sign_effect_abort.
      apply (sign_effect_weaken _ [XPNode cur]); [|done].
      apply sublist_skip, sublist_nil_l.
Qed.

(** The loop stops at the first failure: a table split in two is run as
    its first part and, when that part succeeds, its second part from the
    state the first part leaves. *)
Lemma sign_nodes_app key_file t1 t2 :
  forall doc (w : World Env),
    sign_nodes L key_file (t1 ++ t2) doc w =
    let '(rc, doc1, w1) := sign_nodes L key_file t1 doc w in
    if rc <? 0 then (rc, doc1, w1) else sign_nodes L key_file t2 doc1 w1.
Proof.
  induction t1 as [|x t1 IH]; intros doc w; simpl; [done|].
  destruct x as [cur|ns next]; [|apply IH].
  destruct (is_element doc (XPNode cur)); [|apply IH].
  destruct (do_sign_node L doc cur key_file w) as [[rc doc'] w'].
  destruct (rc <? 0); [done | apply IH].
Qed.

(** A run of [sign_file] stops before the loop with -1, or reaches the
    loop after every earlier step has succeeded. *)
Lemma sign_file_cases tmpl_file key_file (w : World Env) :
  ((sign_file L tmpl_file key_file w).1 = -1 /\
   w_engine (sign_file L tmpl_file key_file w).2 = w_engine w /\
   w_created (sign_file L tmpl_file key_file w).2 = w_created w /\
   doc_dumps (w_stdout (sign_file L tmpl_file key_file w).2)
   = doc_dumps (w_stdout w) /\
   (w_stdout (sign_file L tmpl_file key_file w).2 = w_stdout w \/
    last (w_stderr (sign_file L tmpl_file key_file w).2)
    = Some (E_start_node_not_found tmpl_file))) \/
  (exists doc0 e0 doc1 w1 tab,
      xmlReadFile L tmpl_file (w_env w) = (Some doc0, e0) /\
      doc_root doc1 = doc_root doc0 /\
      is_Some (xmlSecFindNode doc0 [] xmlSecNodeCertificates
                 xmlSecNodeCertificatesNS) /\
      is_Some (xmlSecFindNode doc0 [] "certificate" xmlSecNodeCertificatesNS) /\
      is_Some (xmlSecFindNode doc0 [] (xmlSecNodeSignature L) (xmlSecDSigNs L)) /\
      w_engine w1 = w_engine w /\
      w_stderr w1 = w_stderr w /\
      w_created w1 = w_created w /\
      doc_dumps (w_stdout w1) = doc_dumps (w_stdout w) /\
      sign_file L tmpl_file key_file w = sign_and_dump L key_file tab doc1 w1).
Proof.
  assert (Hprint : forall doc tab,
             doc_dumps (concat (List.map (print_xpath_node doc) tab)) = []).
  { intros doc tab. induction tab as [|x tab IHt]; simpl; [done|].
    rewrite doc_dumps_app, IHt, app_nil_r. unfold print_xpath_node.
    repeat (case_match; simpl; try done). }
  unfold sign_file. generalize (to_c nsList). intros nsl.
  destruct (xmlReadFile L tmpl_file (w_env w)) as [parsed e0] eqn:Eread.
  destruct parsed as [doc0|]; [|left; simpl; repeat split; auto].
  unfold xmlDocGetRootElement.
  destruct (doc_root doc0) as [r|] eqn:Eroot;
    [|left; simpl; repeat split; auto].
  destruct (xmlSecFindNode doc0 [] xmlSecNodeCertificates xmlSecNodeCertificatesNS)
    as [certsNode|] eqn:Ecerts; [|left; simpl; repeat split; auto].
  destruct (RegisterID_cases doc0 certsNode "id" (put_env w e0))
    as [(a1 & n1 & _ & _ & _ & ->) | (d1 & -> & _)];
    [|left; simpl; repeat split; auto].
  simpl. set (doc1 := mkDoc (doc_root doc0) _).
  rewrite (xmlSecFindNode_root doc0 doc1) by done.
  destruct (xmlSecFindNode doc0 [] "certificate" xmlSecNodeCertificatesNS)
    as [certNode|] eqn:Ecert; [|left; simpl; repeat split; auto].
  destruct (RegisterID_cases doc1 certNode "id" (put_env w e0))
    as [(a2 & n2 & _ & _ & _ & ->) | (d2 & -> & _)];
    [|left; simpl; repeat split; auto].
  simpl. set (doc2 := mkDoc (doc_root doc0) _).
  destruct (xmlXPathNewContext L doc2 e0) as [ctx e1].
  destruct ctx as [xpathCtx|]; [|left; simpl; repeat split; auto].
  pose proof (register_namespaces_status (xmlXPathRegisterNs L) xpathCtx nsl)
    as Hns.
  destruct (register_namespaces (xmlXPathRegisterNs L) xpathCtx nsl)
    as [[rc xpathCtx'] msgs].
  simpl in Hns. destruct Hns as [[-> ->] | ->]; simpl;
    [|left; simpl; repeat split; auto].
  destruct (xmlXPathEvalExpression L xpathExpr xpathCtx' doc2 e1) as [obj e2].
  destruct obj as [xpathObj|]; simpl; [|left; simpl; repeat split; auto].
  rewrite (xmlSecFindNode_root doc0 doc2) by done.
  destruct (xmlSecFindNode doc0 [] (xmlSecNodeSignature L) (xmlSecDSigNs L))
    as [sigNode|] eqn:Esig.
  2:{ left; simpl; repeat split; auto.
      - rewrite doc_dumps_app. unfold print_xpath_nodes. simpl.
        by rewrite Hprint, app_nil_r.
      - right. by rewrite last_snoc. }
  right. unfold sign_and_dump.
  eexists doc0, e0, doc2, _, _.
  split; [done|]. split; [done|]. split; [done|]. split; [done|].
  split; [done|].
  split; [|split; [|split; [|split; [|reflexivity]]]]; simpl; try done.
  - by rewrite app_nil_r.
  - rewrite doc_dumps_app. unfold print_xpath_nodes. simpl.
    by rewrite Hprint, app_nil_r.
Qed.

Lemma sign_and_dump_effect key_file tab doc (w : World Env) :
  ((sign_and_dump L key_file tab doc w).1 = 0 \/
   (sign_and_dump L key_file tab doc w).1 = -1) /\
  ((sign_and_dump L key_file tab doc w).1 = -1 ->
   doc_dumps (w_stdout (sign_and_dump L key_file tab doc w).2)
   = doc_dumps (w_stdout w)) /\
  ((sign_and_dump L key_file tab doc w).1 = 0 ->
   w_stderr (sign_and_dump L key_file tab doc w).2 = w_stderr w /\
   exists d, last (w_stdout (sign_and_dump L key_file tab doc w).2)
             = Some (OutDocDump d)) /\
  engine_effect key_file tab w (sign_and_dump L key_file tab doc w).2.
Proof.
  unfold sign_and_dump.
  pose proof (sign_nodes_effect key_file tab doc w) as Heff.
  destruct (sign_nodes L key_file tab doc w) as [[rc doc2] w2]. simpl in Heff.
  destruct Heff as [[-> | ->] Herr Hout Hc Hev]; simpl.
  - split; [by left|]. split; [discriminate|]. split; [|done].
    intros _. split; [by apply Herr|]. exists doc2. by rewrite last_snoc.
  - split; [by right|]. split; [done|]. split; [discriminate|done].
Qed.

(** What a run of [sign_file] does to the world. *)
Lemma sign_file_effect tmpl_file key_file (w : World Env) :
  ((sign_file L tmpl_file key_file w).1 = 0 \/
   (sign_file L tmpl_file key_file w).1 = -1) /\
  ((sign_file L tmpl_file key_file w).1 = -1 ->
   doc_dumps (w_stdout (sign_file L tmpl_file key_file w).2)
   = doc_dumps (w_stdout w)) /\
  ((sign_file L tmpl_file key_file w).1 = 0 ->
   w_stderr (sign_file L tmpl_file key_file w).2 = w_stderr w /\
   exists d, last (w_stdout (sign_file L tmpl_file key_file w).2)
             = Some (OutDocDump d)) /\
  exists tab,
    engine_effect key_file tab w (sign_file L tmpl_file key_file w).2.
Proof.
  destruct (sign_file_cases tmpl_file key_file w)
    as [(Hrc & Heng & Hcr & Hout & _) |
        (doc0 & e0 & doc1 & w1 & tab & _ & _ & _ & _ & _ &
         Heng & Herr & Hcr & Hout & ->)].
  - rewrite Hrc. split; [by right|]. split; [done|]. split; [discriminate|].
    exists []. exists []. rewrite app_nil_r. split; [done|].
    split; [done|]. split; [intros ??? H; by apply elem_of_nil in H|].
    split; [intros ?? H; by apply elem_of_nil in H|].
    intros seen Hseen. exists seen. by rewrite Hcr.
  - destruct (sign_and_dump_effect key_file tab doc1 w1)
      as (Hst & Hfail & Hok & Hev).
    split; [done|]. split; [by rewrite <- Hout; auto|].
    split; [by rewrite <- Herr; auto|].
    exists tab. unfold engine_effect in *. by rewrite <- Heng, <- Hcr.
Qed.

End DriverFacts.


Section DriverClaims.

Context {Env : Type} (L : Libs Env).

(** C5, as the program has it.  [RegisterID] answers -1 exactly when the
    node has no attribute of the given name, or the attribute has no
    children, or no string is read from its children; it then hands back
    the document as it was, so that the table of identifiers gets no
    entry, and writes one diagnostic.  In every other case, the empty
    string read as the value included, it answers 0 and hands the value to
    [xmlAddID]. *)
Theorem RegisterID_missing_attribute doc node idName (w : World Env) :
  let no_value :=
    xmlHasProp doc node idName = None \/
    (exists attr,
        xmlHasProp doc node idName = Some attr /\
        (attr_children attr = [] \/
         xmlNodeListGetString L doc (attr_children attr) = None)) in
  (no_value <-> (RegisterID L doc node idName w).1.1 = -1) /\
  (no_value ->
   (RegisterID L doc node idName w).1.2 = doc /\
   exists d, w_stderr (RegisterID L doc node idName w).2 = w_stderr w ++ [d]) /\
  (forall attr name,
      xmlHasProp doc node idName = Some attr ->
      attr_children attr <> [] ->
      xmlNodeListGetString L doc (attr_children attr) = Some name ->
      RegisterID L doc node idName w =
      (0, mkDoc (doc_root doc)
            (xmlAddID L (doc_ids doc) name (node, attr_name attr)), w)).
Proof.
  intros no_value. subst no_value.
  destruct (RegisterID_cases L doc node idName w)
    as [(attr & name & Hattr & Hch & Hname & Heq) | (d & Heq & Hno)];
    rewrite Heq; simpl.
  - assert (Hyes : ~ (xmlHasProp doc node idName = None \/
                      (exists a, xmlHasProp doc node idName = Some a /\
                         (attr_children a = [] \/
                          xmlNodeListGetString L doc (attr_children a) = None)))).
    { intros [H | (a & Ha & [H | H])]; [congruence| |];
        rewrite Hattr in Ha; injection Ha as <-; congruence. }
    split; [split; [done | discriminate]|]. split; [done|].
    intros a n Ha _ Hn. rewrite Hattr in Ha. injection Ha as <-.
    rewrite Hname in Hn. by injection Hn as <-.
  - assert (Hyes : xmlHasProp doc node idName = None \/
                   (exists a, xmlHasProp doc node idName = Some a /\
                      (attr_children a = [] \/
                       xmlNodeListGetString L doc (attr_children a) = None))).
    { destruct (xmlHasProp doc node idName) as [a|]; [right; eauto | by left]. }
    split; [done|]. split; [by eauto|].
    intros a n Ha Hch Hn. rewrite Ha in Hno. destruct Hno; congruence.
Qed.

(** [RegisterID] never consults the table of identifiers: with an
    attribute whose value is read as [name], the status is 0 and the
    value is handed to [xmlAddID], whether or not [name] is registered. *)
Lemma RegisterID_registers_unchecked doc node idName (w : World Env) attr name :
  xmlHasProp doc node idName = Some attr ->
  attr_children attr <> [] ->
  xmlNodeListGetString L doc (attr_children attr) = Some name ->
  RegisterID L doc node idName w =
  (0, mkDoc (doc_root doc)
        (xmlAddID L (doc_ids doc) name (node, attr_name attr)), w).
Proof.
  intros Hattr Hch Hname. unfold RegisterID. rewrite Hattr.
  destruct (attr_children attr); [done|]. by rewrite Hname.
Qed.

(** C6.  When the parsed document has no [Signature] node of the
    signature namespace, the run answers -1, writes no document and signs
    nothing; it either stopped at an earlier step, before anything was
    printed, or its last diagnostic is the one of the missing start
    node. *)
Theorem sign_file_no_signature_template tmpl_file key_file
    (w : World Env) doc0 e0 :
  xmlReadFile L tmpl_file (w_env w) = (Some doc0, e0) ->
  xmlSecFindNode doc0 [] (xmlSecNodeSignature L) (xmlSecDSigNs L) = None ->
  (sign_file L tmpl_file key_file w).1 = -1 /\
  doc_dumps (w_stdout (sign_file L tmpl_file key_file w).2)
  = doc_dumps (w_stdout w) /\
  w_engine (sign_file L tmpl_file key_file w).2 = w_engine w /\
  (w_stdout (sign_file L tmpl_file key_file w).2 = w_stdout w \/
   last (w_stderr (sign_file L tmpl_file key_file w).2)
   = Some (E_start_node_not_found tmpl_file)).
Proof.
  intros Hread Hmiss.
  destruct (sign_file_cases L tmpl_file key_file w)
    as [(Hrc & Heng & _ & Hout & Hlast) |
        (d & e & doc1 & w1 & tab & Hread' & _ & _ & _ & [c Hc] & _)];
    [done|].
  rewrite Hread in Hread'. injection Hread' as <- <-. congruence.
Qed.

(** C7.  [main] returns 0, 1 or -1: 1 exactly when the argument count is
    not 3, 0 exactly on full success (and then the signed document is the
    last thing written to stdout), -1 for every processing failure.  The
    exit status is 0 exactly when [main] returns 0, and the two failure
    values give different statuses, 1 and 255. *)
Theorem main_exit_code argc argv (w : World Env) :
  ((main L argc argv w).1 = 0 \/ (main L argc argv w).1 = 1 \/
   (main L argc argv w).1 = -1) /\
  ((main L argc argv w).1 = 1 <-> argc <> 3) /\
  ((main L argc argv w).1 = 0 <-> full_success L argc argv w) /\
  ((main L argc argv w).1 = 0 ->
   exists d, last (w_stdout (main L argc argv w).2) = Some (OutDocDump d)) /\
  (exit_status (main L argc argv w).1 = 0 <-> (main L argc argv w).1 = 0) /\
  exit_status 1 = 1 /\ exit_status (-1) = 255.
Proof.
  assert (Hgoal :
    ((main L argc argv w).1 = 1 /\ argc <> 3) \/
    ((main L argc argv w).1 = -1 /\ argc = 3 /\ ~ full_success L argc argv w) \/
    ((main L argc argv w).1 = 0 /\ full_success L argc argv w /\
     exists d, last (w_stdout (main L argc argv w).2) = Some (OutDocDump d))).
  { unfold main, full_success, initialised.
    destruct (argc =? 3) eqn:Eargc; simpl.
    2:{ left. split; [done|]. by apply Z.eqb_neq. }
    apply Z.eqb_eq in Eargc. right.
    destruct (xmlSecInit L (w_env w)) as [r1 e1]; simpl.
    destruct (r1 <? 0) eqn:E1; simpl.
    { left. apply Z.ltb_lt in E1. split; [done|]. split; [done|]. lia. }
    apply Z.ltb_ge in E1.
    destruct (xmlSecCheckVersion L e1) as [r2 e2]; simpl.
    destruct (r2 =? 1) eqn:E2; simpl.
    2:{ left. apply Z.eqb_neq in E2. split; [done|]. split; [done|]. tauto. }
    apply Z.eqb_eq in E2.
    destruct (xmlSecCryptoAppInit L e2) as [r3 e3]; simpl.
    destruct (r3 <? 0) eqn:E3; simpl.
    { left. apply Z.ltb_lt in E3. split; [done|]. split; [done|]. lia. }
    apply Z.ltb_ge in E3.
    destruct (xmlSecCryptoInit L e3) as [r4 e4]; simpl.
    destruct (r4 <? 0) eqn:E4; simpl.
    { left. apply Z.ltb_lt in E4. split; [done|]. split; [done|]. lia. }
    apply Z.ltb_ge in E4.
    change (put_env (put_env (put_env (put_env w e1) e2) e3) e4)
      with (put_env w e4).
    destruct (sign_file_effect L (List.nth 1 argv "") (List.nth 2 argv "")
                (put_env w e4)) as (Hst & _ & Hok & _).
    destruct (sign_file L (List.nth 1 argv "") (List.nth 2 argv "")
                (put_env w e4)) as [rc w'].
    simpl in *. destruct Hst as [-> | ->]; simpl.
    - right. split; [done|]. split; [done|]. by apply Hok.
    - left. split; [done|]. split; [done|]. intros (_ & _ & _ & _ & _ & H).
      discriminate. }
  assert (Hs1 : exit_status 1 = 1) by reflexivity.
  assert (Hs2 : exit_status (-1) = 255) by reflexivity.
  destruct Hgoal as [[Hrc Ha] | [(Hrc & Ha & Hf) | (Hrc & Hf & Hd)]];
    rewrite Hrc.
  - assert (~ full_success L argc argv w) by (by intros [? _]).
    intuition (try discriminate; try done).
  - intuition (try discriminate; try done).
  - assert (argc = 3) by (by destruct Hf).
    intuition (try discriminate; try done).
Qed.

End DriverClaims.

(** ** The program on the sample world *)

(** C1.  [RegisterID] on a value that is already registered: in the
    sample document the container and the certificate both carry the
    identifier [x]; once the container is registered, registering the
    certificate answers 0 and writes no diagnostic, and the whole run
    succeeds. *)
Theorem RegisterID_accepts_registered_identifier :
  let w := Sample.world 5 in
  let doc1 := (RegisterID Sample.libs Sample.template_same_id [0%nat] "id" w).1.2 in
  xmlGetID doc1 "x" = Some ([0%nat], "id") /\
  xmlHasProp doc1 [0%nat; 0%nat] "id" = Some (mkAttr "id" ["x"]) /\
  (RegisterID Sample.libs doc1 [0%nat; 0%nat] "id" w).1.1 = 0 /\
  w_stderr (RegisterID Sample.libs doc1 [0%nat; 0%nat] "id" w).2 = [] /\
  (sign_file Sample.libs "same-id.xml" "rsakey.pem" w).1 = 0.
Proof. vm_compute. repeat split. Qed.

(** C2, as stated, fails on the sample document whose certificate is a
    sibling placed before the empty container: a search within the
    container finds nothing, and the run does not fail. *)
Lemma sign_file_certificate_outside_container :
  ~ (forall certs,
        xmlSecFindNode Sample.template_cert_outside []
          xmlSecNodeCertificates xmlSecNodeCertificatesNS = Some certs ->
        xmlSecFindNode Sample.template_cert_outside certs
          "certificate" xmlSecNodeCertificatesNS = None ->
        (sign_file Sample.libs "outside.xml" "rsakey.pem" (Sample.world 5)).1 < 0).
Proof.
  intros H. specialize (H [1%nat] eq_refl eq_refl).
  vm_compute in H. discriminate.
Qed.

(** C5, as stated, fails on the sample container whose attribute is
    [id=""]: the attribute is present, the value read from it is the
    empty string, and [RegisterID] does not answer a negative value. *)
Lemma RegisterID_accepts_empty_value :
  ~ (xmlHasProp template_empty_id [0%nat] "id" = Some (mkAttr "id" [""]) ->
     xmlNodeListGetString Sample.libs template_empty_id [""] = Some "" ->
     (RegisterID Sample.libs template_empty_id [0%nat] "id" (Sample.world 0)).1.1
     < 0).
Proof.
  intros H. specialize (H eq_refl eq_refl). vm_compute in H. discriminate.
Qed.

(** The empty identifier is then in the table, and the run goes on to
    sign the template. *)
Example RegisterID_registers_empty_value :
  let r := RegisterID Sample.libs template_empty_id [0%nat] "id" (Sample.world 0) in
  r.1.1 = 0 /\ xmlGetID r.1.2 "" = Some ([0%nat], "id") /\ w_stderr r.2 = [].
Proof. vm_compute. repeat split. Qed.

(** The three failures of [RegisterID] on sample nodes: no attribute of
    that name, an attribute without children, a value that cannot be
    read. *)
Example RegisterID_sample_failures :
  RegisterID Sample.libs Sample.template [] "id" (Sample.world 0)
  = (-1, Sample.template, log_err (Sample.world 0) [E_get_attribute "id"]) /\
  RegisterID Sample.libs template_no_value [0%nat] "id" (Sample.world 0)
  = (-1, template_no_value, log_err (Sample.world 0) [E_get_attribute "id"]) /\
  RegisterID (with_unreadable_values Sample.libs) Sample.template [0%nat] "id"
    (Sample.world 0)
  = (-1, Sample.template,
     log_err (Sample.world 0) [E_get_attribute_value "id"]).
Proof. repeat split. Qed.

Lemma sign_file_no_signature_template_witness :
  xmlReadFile Sample.libs "unsigned.xml" (w_env (Sample.world 5))
  = (Some Sample.template_unsigned, w_env (Sample.world 5)) /\
  xmlSecFindNode Sample.template_unsigned []
    (xmlSecNodeSignature Sample.libs) (xmlSecDSigNs Sample.libs) = None /\
  (sign_file Sample.libs "unsigned.xml" "rsakey.pem" (Sample.world 5)).1 = -1 /\
  doc_dumps (w_stdout (sign_file Sample.libs "unsigned.xml" "rsakey.pem"
                         (Sample.world 5)).2)
  = doc_dumps (w_stdout (Sample.world 5)) /\
  w_engine (sign_file Sample.libs "unsigned.xml" "rsakey.pem"
              (Sample.world 5)).2
  = w_engine (Sample.world 5) /\
  (w_stdout (sign_file Sample.libs "unsigned.xml" "rsakey.pem"
               (Sample.world 5)).2 = w_stdout (Sample.world 5) \/
   last (w_stderr (sign_file Sample.libs "unsigned.xml" "rsakey.pem"
                     (Sample.world 5)).2)
   = Some (E_start_node_not_found "unsigned.xml")).
Proof.
  assert (H1 : xmlReadFile Sample.libs "unsigned.xml" (w_env (Sample.world 5))
               = (Some Sample.template_unsigned, w_env (Sample.world 5)))
    by reflexivity.
  assert (H2 : xmlSecFindNode Sample.template_unsigned []
                 (xmlSecNodeSignature Sample.libs) (xmlSecDSigNs Sample.libs)
               = None)
    by reflexivity.
  split; [exact H1|]. split; [exact H2|].
  exact (sign_file_no_signature_template Sample.libs "unsigned.xml"
           "rsakey.pem" (Sample.world 5) _ _ H1 H2).
Defined.

(** The two signature templates of the sample are signed in document
    order by two contexts, and the document is written last. *)
Example sign_file_sample_success :
  let r := sign_file Sample.libs "tmpl.xml" "rsakey.pem" (Sample.world 5) in
  r.1 = 0 /\
  sign_targets (w_engine r.2) = [XPNode [1%nat]; XPNode [3%nat]] /\
  List.map (fun ev => match ev with EvCreate h => Some h | _ => None end)
    (List.filter (fun ev => match ev with EvCreate _ => true | _ => false end)
       (w_engine r.2)) = [Some 0%nat; Some 1%nat] /\
  length (doc_dumps (w_stdout r.2)) = 1%nat /\
  w_stderr r.2 = [].
Proof. vm_compute. repeat split. Qed.

(** The engine fails on the second template: the run answers -1 after
    the first signature, and no document is written. *)
Example sign_file_sample_second_signature_fails :
  let r := sign_file Sample.libs "tmpl.xml" "rsakey.pem" (Sample.world 1) in
  r.1 = -1 /\
  sign_targets (w_engine r.2) = [XPNode [1%nat]; XPNode [3%nat]] /\
  doc_dumps (w_stdout r.2) = [] /\
  w_stderr r.2 = [E_signature_failed; E_sign_node].
Proof. vm_compute. repeat split. Qed.

(** Exit codes of the sample runs: success, a missing key file, a wrong
    argument count. *)
Example main_sample_exit_codes :
  (main Sample.libs 3 ["sign1"; "tmpl.xml"; "rsakey.pem"] (Sample.world 5)).1 = 0 /\
  (main Sample.libs 3 ["sign1"; "tmpl.xml"; "nokey.pem"] (Sample.world 5)).1 = -1 /\
  (main Sample.libs 2 ["sign1"; "tmpl.xml"] (Sample.world 5)).1 = 1.
Proof. vm_compute. repeat split. Qed.

(** With a registration function that never fails, a token without [=]
    after a well-formed binding gives the malformed-list diagnostic. *)
Example register_namespaces_sample_malformed :
  register_namespaces (fun ctx _ _ => (0, ctx)) (mkXPathContext ∅)
    (to_c "a=b c") = (-1, mkXPathContext ∅, [E_ns_list_format]).
Proof. reflexivity. Qed.

(** * Further properties *)

(** ** The namespace-list parser *)

Lemma skip_spaces_replicate k l :
  skip_spaces (replicate k " "%char ++ l) = skip_spaces l.
Proof. induction k as [|k IH]; simpl; [done | exact IH]. Qed.

Lemma skip_spaces_binding_start p tail :
  match p with c :: _ => is_space c = false | [] => True end ->
  skip_spaces (p ++ "="%char :: tail) = p ++ "="%char :: tail.
Proof.
  destruct p as [|c p]; simpl; [done|]. by intros ->.
Qed.

Section NamespaceSequences.

Variable reg : xmlXPathContext -> string -> string -> Z * xmlXPathContext.

(** One well-formed binding closed by a space: its registration call,
    then the rest of the list. *)
Lemma loop_binding xpathCtx b rest :
  well_formed_binding b ->
  register_namespaces_loop reg (render_binding b ++ " "%char :: rest) xpathCtx =
  let '(rc, ctx') := reg xpathCtx (of_c (b_prefix b)) (of_c (b_href b)) in
  if negb (rc =? 0)
  then (-1, ctx', [E_register_ns (of_c (b_prefix b)) (of_c (b_href b))])
  else register_namespaces_loop reg rest ctx'.
Proof.
  intros (Hstart & Hp & Hh). unfold render_binding.
  destruct b as [pad p h]. simpl in *.
  set (s := p ++ "="%char :: h ++ " "%char :: rest).
  assert (Hs : skip_spaces ((replicate pad " "%char ++ p ++ "="%char :: h)
                            ++ " "%char :: rest) = s).
  { rewrite <- !app_assoc, skip_spaces_replicate. simpl.
    by apply skip_spaces_binding_start. }
  rewrite (register_namespaces_loop_turn reg _ s _ Hs)
    by (unfold s; by destruct p).
  assert (Heq : xmlStrchr s "="%char = Some (length p)).
  { unfold s. rewrite (xmlStrchr_app_r _ _ _ Hp). simpl.
    by rewrite Nat.add_0_r. }
  rewrite Heq.
  assert (Htake : take (length p) s = p) by (unfold s; apply take_app_length).
  assert (Hdrop : drop (S (length p)) s = h ++ " "%char :: rest).
  { unfold s. replace (p ++ "="%char :: h ++ " "%char :: rest)
      with ((p ++ ["="%char]) ++ h ++ " "%char :: rest)
      by (by rewrite <- app_assoc).
    replace (S (length p)) with (length (p ++ ["="%char]))
      by (rewrite length_app; simpl; lia).
    apply drop_app_length. }
  rewrite Htake, Hdrop.
  assert (Hsp : xmlStrchr (h ++ " "%char :: rest) " "%char = Some (length h)).
  { rewrite (xmlStrchr_app_r _ _ _ Hh). simpl. by rewrite Nat.add_0_r. }
  rewrite Hsp, take_app_length.
  replace (drop (S (length h)) (h ++ " "%char :: rest)) with rest; [done|].
  replace (h ++ " "%char :: rest) with ((h ++ [" "%char]) ++ rest)
    by (by rewrite <- app_assoc).
  replace (S (length h)) with (length (h ++ [" "%char]))
    by (rewrite length_app; simpl; lia).
  by rewrite drop_app_length.
Qed.

(** The last binding, with nothing after its href. *)
Lemma loop_binding_last xpathCtx b :
  well_formed_binding b ->
  register_namespaces_loop reg (render_binding b) xpathCtx =
  let '(rc, ctx') := reg xpathCtx (of_c (b_prefix b)) (of_c (b_href b)) in
  if negb (rc =? 0)
  then (-1, ctx', [E_register_ns (of_c (b_prefix b)) (of_c (b_href b))])
  else (0, ctx', []).
Proof.
  intros (Hstart & Hp & Hh). unfold render_binding.
  destruct b as [pad p h]. simpl in *.
  set (s := p ++ "="%char :: h).
  assert (Hs : skip_spaces (replicate pad " "%char ++ p ++ "="%char :: h) = s).
  { rewrite skip_spaces_replicate. by apply skip_spaces_binding_start. }
  rewrite (register_namespaces_loop_turn reg _ s _ Hs)
    by (unfold s; by destruct p).
  assert (Heq : xmlStrchr s "="%char = Some (length p)).
  { unfold s. rewrite (xmlStrchr_app_r _ _ _ Hp). simpl.
    by rewrite Nat.add_0_r. }
  rewrite Heq.
  assert (Htake : take (length p) s = p) by (unfold s; apply take_app_length).
  assert (Hdrop : drop (S (length p)) s = h).
  { unfold s. replace (p ++ "="%char :: h) with ((p ++ ["="%char]) ++ h)
      by (by rewrite <- app_assoc).
    replace (S (length p)) with (length (p ++ ["="%char]))
      by (rewrite length_app; simpl; lia).
    apply drop_app_length. }
  rewrite Htake, Hdrop.
  apply xmlStrchr_None in Hh. by rewrite Hh.
Qed.

Lemma loop_blank xpathCtx k :
  register_namespaces_loop reg (replicate k " "%char) xpathCtx = (0, xpathCtx, []).
Proof.
  rewrite register_namespaces_loop_body.
  rewrite <- (app_nil_r (replicate k _)), skip_spaces_replicate. done.
Qed.

(** X1.  A list of well-formed bindings, each closed by one space except
    possibly the last, with any number of spaces before each binding and
    at the end: the parser makes the registration calls of the bindings in
    order and stops at the first call that fails. *)
Theorem register_namespaces_well_formed_list xpathCtx bs k :
  Forall well_formed_binding bs ->
  register_namespaces reg xpathCtx (render_bindings bs ++ replicate k " "%char)
  = register_all reg xpathCtx bs.
Proof.
  unfold register_namespaces, xmlStrdup.
  revert xpathCtx. induction bs as [|b bs IH]; intros xpathCtx Hwf.
  - simpl. apply loop_blank.
  - apply Forall_cons in Hwf as [Hb Hwf]. specialize (IH).
    destruct bs as [|b2 bs].
    + cbn [render_bindings register_all].
      destruct k as [|k].
      * rewrite app_nil_r, (loop_binding_last _ _ Hb).
        destruct (reg xpathCtx _ _) as [rc ctx']. by destruct (rc =? 0).
      * cbn [replicate]. rewrite (loop_binding _ _ _ Hb).
        destruct (reg xpathCtx _ _) as [rc ctx']. destruct (rc =? 0); [|done].
        apply loop_blank.
    + change (render_bindings (b :: b2 :: bs))
        with (render_binding b ++ " "%char :: render_bindings (b2 :: bs)).
      rewrite <- app_assoc. cbn [app]. rewrite (loop_binding _ _ _ Hb).
      cbn [register_all].
      destruct (reg xpathCtx _ _) as [rc ctx']. destruct (rc =? 0); [|done].
      simpl negb. cbv iota. by apply IH.
Qed.

(** X2.  Nothing is rolled back: when well-formed bindings are followed,
    after a space, by a token without [=], the registrations made for the
    bindings stay in the context that comes back with the status -1 and
    the malformed-list diagnostic (or the run of registrations has
    already stopped at a failing call). *)
Theorem register_namespaces_keeps_earlier_bindings xpathCtx bs k c rest :
  bs <> [] ->
  Forall well_formed_binding bs ->
  is_space c = false ->
  "="%char ∉ c :: rest ->
  register_namespaces reg xpathCtx
    (render_bindings bs ++ " "%char :: replicate k " "%char ++ c :: rest)
  = let '(rc, ctx', msgs) := register_all reg xpathCtx bs in
    if rc <? 0 then (rc, ctx', msgs) else (-1, ctx', [E_ns_list_format]).
Proof.
  unfold register_namespaces, xmlStrdup.
  intros Hne Hwf Hc Heq.
  assert (Hdangling : forall ctx,
    register_namespaces_loop reg (replicate k " "%char ++ c :: rest) ctx
    = (-1, ctx, [E_ns_list_format])).
  { intros ctx.
    rewrite (register_namespaces_loop_turn reg _ (c :: rest));
      [| by rewrite skip_spaces_replicate, (skip_spaces_no_space _ _ Hc) | done].
    apply xmlStrchr_None in Heq. by rewrite Heq. }
  revert xpathCtx. induction bs as [|b bs IH]; intros xpathCtx; [done|].
  apply Forall_cons in Hwf as [Hb Hwf].
  destruct bs as [|b2 bs].
  - cbn [render_bindings register_all]. rewrite (loop_binding _ _ _ Hb).
    destruct (reg xpathCtx _ _) as [rc ctx']. destruct (rc =? 0); [|done].
    apply Hdangling.
  - change (render_bindings (b :: b2 :: bs))
      with (render_binding b ++ " "%char :: render_bindings (b2 :: bs)).
    rewrite <- app_assoc. cbn [app]. rewrite (loop_binding _ _ _ Hb).
    cbn [register_all].
    destruct (reg xpathCtx _ _) as [rc ctx']. destruct (rc =? 0); [|done].
    simpl negb. cbv iota. by apply IH.
Qed.

(** X3.  The parser reports every failure and nothing else: its status is
    0 with no diagnostic, or -1 with exactly one diagnostic, which is the
    malformed-list one or the one of a failed registration call. *)
Theorem register_namespaces_reports_failure xpathCtx l :
  ((register_namespaces reg xpathCtx l).1.1 = 0 /\
   (register_namespaces reg xpathCtx l).2 = []) \/
  ((register_namespaces reg xpathCtx l).1.1 = -1 /\
   ((register_namespaces reg xpathCtx l).2 = [E_ns_list_format] \/
    exists p h, (register_namespaces reg xpathCtx l).2 = [E_register_ns p h])).
Proof.
  unfold register_namespaces, xmlStrdup.
  remember (length l) as n eqn:Hn. assert (Hle : (length l <= n)%nat) by lia.
  clear Hn. revert l xpathCtx Hle.
  induction n as [n IH] using lt_wf_ind. intros next xpathCtx Hle.
  rewrite register_namespaces_loop_body.
  pose proof (skip_spaces_length next) as Hskip.
  destruct (skip_spaces next) as [|c r]; [by left|].
  cbv zeta.
  assert (Hlen : (0 < length (c :: r) <= length next)%nat) by (simpl in *; lia).
  revert Hlen. generalize (c :: r). clear Hskip. intros s Hlen.
  destruct (xmlStrchr s "="%char) as [i|]; [|right; split; [done|by left]].
  destruct (xmlStrchr (drop (S i) s) " "%char) as [j|].
  - destruct (reg xpathCtx _ _) as [rc ctx']. destruct (rc =? 0); simpl.
    + apply (IH (length (drop (S j) (drop (S i) s)))); [|done].
      rewrite !length_drop. lia.
    + right. split; [done|]. right. eauto.
  - destruct (reg xpathCtx _ _) as [rc ctx']. destruct (rc =? 0); simpl;
      [by left|]. right. split; [done|]. right. eauto.
Qed.

End NamespaceSequences.

(** X4.  [skip_spaces] removes leading spaces and nothing else: what it is
    given is some spaces followed by what it returns, and what it returns
    does not begin with a space. *)
Theorem skip_spaces_strips_leading_spaces next :
  (exists k, next = replicate k " "%char ++ skip_spaces next) /\
  match skip_spaces next with
  | c :: _ => is_space c = false
  | [] => True
  end.
Proof.
  induction next as [|c rest [[k Hk] Hhead]]; simpl.
  - split; [by exists O | done].
  - destruct (is_space c) eqn:Ec.
    + split; [|done]. exists (S k). apply is_space_true in Ec as ->.
      simpl. by rewrite <- Hk.
    + split; [by exists O | done].
Qed.

Lemma register_namespaces_well_formed_list_witness :
  Forall well_formed_binding
    [mkBinding 0 (to_c "a") (to_c "b"); mkBinding 2 (to_c "c") (to_c "d=e")] /\
  register_namespaces Sample.register_ns (mkXPathContext ∅)
    (to_c "a=b   c=d=e ")
  = (0, mkXPathContext (<["c" := "d=e"]> {["a" := "b"]}), []).
Proof.
  assert (H : Forall well_formed_binding
    [mkBinding 0 (to_c "a") (to_c "b"); mkBinding 2 (to_c "c") (to_c "d=e")]).
  { repeat constructor; simpl; apply xmlStrchr_None; reflexivity. }
  split; [exact H|].
  exact (register_namespaces_well_formed_list Sample.register_ns
           (mkXPathContext ∅) _ 1 H).
Defined.

Lemma register_namespaces_keeps_earlier_bindings_witness :
  [mkBinding 0 (to_c "a") (to_c "b")] <> [] /\
  Forall well_formed_binding [mkBinding 0 (to_c "a") (to_c "b")] /\
  is_space "c" = false /\
  ("="%char ∉ to_c "c") /\
  register_namespaces Sample.register_ns (mkXPathContext ∅) (to_c "a=b  c")
  = (-1, mkXPathContext {["a" := "b"]}, [E_ns_list_format]).
Proof.
  assert (H1 : [mkBinding 0 (to_c "a") (to_c "b")] <> []) by discriminate.
  assert (H2 : Forall well_formed_binding [mkBinding 0 (to_c "a") (to_c "b")]).
  { repeat constructor; simpl; apply xmlStrchr_None; reflexivity. }
  assert (H3 : is_space "c" = false) by reflexivity.
  assert (H4 : "="%char ∉ to_c "c") by (apply xmlStrchr_None; reflexivity).
  split; [exact H1|]. split; [exact H2|]. split; [exact H3|]. split; [exact H4|].
  exact (register_namespaces_keeps_earlier_bindings Sample.register_ns
           (mkXPathContext ∅) _ 1 "c"%char [] H1 H2 H3 H4).
Defined.

(** ** The signer of one template *)

Section SignerFacts.

Context {Env : Type} (L : Libs Env).

(** The five ways through [do_sign_node], with the world each leaves. *)
Lemma do_sign_node_paths doc node key_file (w : World Env) :
  let h := w_created w in
  (exists e,
      do_sign_node L doc node key_file w =
      (-1, doc, mkWorld e (w_stdout w) (w_stderr w ++ [E_create_context])
                  (w_engine w) h)) \/
  (exists e,
      do_sign_node L doc node key_file w =
      (-1, doc, mkWorld e (w_stdout w) (w_stderr w ++ [E_load_key key_file])
                  (w_engine w ++ [EvCreate h; EvLoadKey h key_file; EvDestroy h])
                  (S h))) \/
  (exists e,
      do_sign_node L doc node key_file w =
      (-1, doc, mkWorld e (w_stdout w) (w_stderr w ++ [E_set_key_name key_file])
                  (w_engine w ++ [EvCreate h; EvLoadKey h key_file;
                                  EvSetName h key_file; EvDestroy h])
                  (S h))) \/
  (exists e doc',
      do_sign_node L doc node key_file w =
      (-1, doc', mkWorld e (w_stdout w) (w_stderr w ++ [E_signature_failed])
                   (w_engine w ++ [EvCreate h; EvLoadKey h key_file;
                                   EvSetName h key_file; EvSign h doc node;
                                   EvDestroy h])
                   (S h))) \/
  (exists e doc' k,
      do_sign_node L doc node key_file w =
      (0, doc', mkWorld e
                  (w_stdout w ++
                   [OutDSigCtxDebugDump
                      (mkDSigCtx h (Some (mkKey k (Some key_file))))])
                  (w_stderr w)
                  (w_engine w ++ [EvCreate h; EvLoadKey h key_file;
                                  EvSetName h key_file; EvSign h doc node;
                                  EvDebugDump h; EvDestroy h])
                  (S h))).
Proof.
  unfold do_sign_node, xmlSecDSigCtxCreate.
  destruct (alloc_dsig_ctx L (w_env w)) as [created e1].
  destruct created; simpl; [|left; eauto].
  right.
  destruct (xmlSecCryptoAppKeyLoadEx L key_file e1) as [key e2].
  destruct key as [k|]; simpl.
  2:{ left. eexists. unfold do_sign_node_done, log_engine, log_err. simpl.
      by rewrite <- !app_assoc. }
  right.
  destruct (xmlSecKeySetName L k key_file e2) as [rc1 e3].
  destruct (rc1 <? 0); simpl.
  { left. eexists. unfold do_sign_node_done, log_engine, log_err. simpl.
    by rewrite <- !app_assoc. }
  right.
  destruct (xmlSecDSigCtxSign L _ doc node e3) as [[rc2 doc'] e4].
  destruct (rc2 <? 0); simpl.
  { left. eexists _, _. unfold do_sign_node_done, log_engine, log_err. simpl.
    by rewrite <- !app_assoc. }
  right. eexists _, _, _. unfold do_sign_node_done, log_engine, log_out. simpl.
  by rewrite <- !app_assoc.
Qed.

(** [do_sign_node] by the answers of the library calls it makes, each
    call reading the environment the call before it left. *)
Lemma do_sign_node_outcome doc node key_file (w : World Env) :
  let h := w_created w in
  let a := alloc_dsig_ctx L (w_env w) in
  let l := xmlSecCryptoAppKeyLoadEx L key_file a.2 in
  do_sign_node L doc node key_file w =
  if a.1 then
    match l.1 with
    | None =>
        (-1, doc,
         mkWorld l.2 (w_stdout w) (w_stderr w ++ [E_load_key key_file])
           (w_engine w ++ failed_block h key_file doc node (E_load_key key_file))
           (S h))
    | Some k =>
        let n := xmlSecKeySetName L k key_file l.2 in
        let ctx := mkDSigCtx h (Some (mkKey (key_value k) (Some key_file))) in
        let s := xmlSecDSigCtxSign L ctx doc node n.2 in
        if n.1 <? 0 then
          (-1, doc,
           mkWorld n.2 (w_stdout w) (w_stderr w ++ [E_set_key_name key_file])
             (w_engine w
              ++ failed_block h key_file doc node (E_set_key_name key_file))
             (S h))
        else if s.1.1 <? 0 then
          (-1, s.1.2,
           mkWorld s.2 (w_stdout w) (w_stderr w ++ [E_signature_failed])
             (w_engine w ++ failed_block h key_file doc node E_signature_failed)
             (S h))
        else
          (0, s.1.2,
           mkWorld s.2 (w_stdout w ++ [OutDSigCtxDebugDump ctx]) (w_stderr w)
             (w_engine w ++ signed_block h key_file doc node) (S h))
    end
  else
    (-1, doc,
     mkWorld a.2 (w_stdout w) (w_stderr w ++ [E_create_context]) (w_engine w) h).
Proof.
  unfold do_sign_node, xmlSecDSigCtxCreate. simpl.
  destruct (alloc_dsig_ctx L (w_env w)) as [created e1].
  destruct created; simpl; [|done].
  destruct (xmlSecCryptoAppKeyLoadEx L key_file e1) as [key e2].
  destruct key as [k|]; simpl.
  2:{ unfold do_sign_node_done, log_engine, log_err. simpl.
      by rewrite <- !app_assoc. }
  destruct (xmlSecKeySetName L k key_file e2) as [rc1 e3]. simpl.
  destruct (rc1 <? 0); simpl.
  { unfold do_sign_node_done, log_engine, log_err. simpl.
    by rewrite <- !app_assoc. }
  destruct (xmlSecDSigCtxSign L _ doc node e3) as [[rc2 doc'] e4]. simpl.
  destruct (rc2 <? 0); simpl;
    unfold do_sign_node_done, log_engine, log_err, log_out; simpl;
    by rewrite <- !app_assoc.
Qed.

(** X5.  [do_sign_node] names the step that failed.  When the context
    cannot be allocated it writes the context diagnostic; when the key
    file cannot be loaded, the key diagnostic; when the key cannot be
    named, the key-name diagnostic; when the signing call fails, the
    signature diagnostic; in these four cases it answers -1, writes that
    one diagnostic and nothing to stdout.  When every call succeeds it
    answers 0, writes no diagnostic, and writes to stdout the debug dump
    of the context it created, holding the key named after the key
    file. *)
Theorem do_sign_node_reports doc node key_file (w : World Env) :
  let r := do_sign_node L doc node key_file w in
  let a := alloc_dsig_ctx L (w_env w) in
  let l := xmlSecCryptoAppKeyLoadEx L key_file a.2 in
  (a.1 = false ->
   r.1.1 = -1 /\ w_stdout r.2 = w_stdout w /\
   w_stderr r.2 = w_stderr w ++ [E_create_context]) /\
  (a.1 = true -> l.1 = None ->
   r.1.1 = -1 /\ w_stdout r.2 = w_stdout w /\
   w_stderr r.2 = w_stderr w ++ [E_load_key key_file]) /\
  (forall k,
      a.1 = true -> l.1 = Some k ->
      let n := xmlSecKeySetName L k key_file l.2 in
      let ctx := mkDSigCtx (w_created w)
                   (Some (mkKey (key_value k) (Some key_file))) in
      let s := xmlSecDSigCtxSign L ctx doc node n.2 in
      (n.1 < 0 ->
       r.1.1 = -1 /\ w_stdout r.2 = w_stdout w /\
       w_stderr r.2 = w_stderr w ++ [E_set_key_name key_file]) /\
      (0 <= n.1 -> s.1.1 < 0 ->
       r.1.1 = -1 /\ w_stdout r.2 = w_stdout w /\
       w_stderr r.2 = w_stderr w ++ [E_signature_failed]) /\
      (0 <= n.1 -> 0 <= s.1.1 ->
       r.1.1 = 0 /\ w_stderr r.2 = w_stderr w /\
       w_stdout r.2 = w_stdout w ++ [OutDSigCtxDebugDump ctx])).
Proof.
  intros r a l. subst r. rewrite do_sign_node_outcome. fold a l.
  split; [|split].
  - intros ->. done.
  - intros -> ->. done.
  - intros k -> -> n ctx s. cbv zeta. fold n ctx s.
    split; [|split].
    + intros Hn. apply Z.ltb_lt in Hn. rewrite Hn. done.
    + intros Hn Hs. apply Z.ltb_ge in Hn. apply Z.ltb_lt in Hs.
      rewrite Hn, Hs. done.
    + intros Hn Hs. apply Z.ltb_ge in Hn. apply Z.ltb_ge in Hs.
      rewrite Hn, Hs. done.
Qed.

(** X6.  The document reaches the engine only after the context was
    created and the key loaded and named.  When the allocation, the key
    loading or the key naming fails, [do_sign_node] makes no signing
    call, answers -1 and hands back the document as it received it.
    Otherwise it makes exactly one signing call, on the node and the
    document it was given, and hands back the document of that call. *)
Theorem do_sign_node_document_untouched_before_signing doc node key_file
    (w : World Env) :
  let r := do_sign_node L doc node key_file w in
  let a := alloc_dsig_ctx L (w_env w) in
  let l := xmlSecCryptoAppKeyLoadEx L key_file a.2 in
  exists evs,
    w_engine r.2 = w_engine w ++ evs /\
    (((a.1 = false \/ l.1 = None \/
       exists k, l.1 = Some k /\ (xmlSecKeySetName L k key_file l.2).1 < 0) /\
      sign_targets evs = [] /\ r.1.1 = -1 /\ r.1.2 = doc) \/
     (a.1 = true /\
      exists k,
        l.1 = Some k /\ 0 <= (xmlSecKeySetName L k key_file l.2).1 /\
        sign_targets evs = [XPNode node] /\
        first_signed_doc evs = Some doc /\
        r.1.2 =
        (xmlSecDSigCtxSign L
           (mkDSigCtx (w_created w) (Some (mkKey (key_value k) (Some key_file))))
           doc node (xmlSecKeySetName L k key_file l.2).2).1.2)).
Proof.
  intros r a l. subst r. rewrite do_sign_node_outcome. fold a l.
  destruct (a.1) eqn:Ea.
  2:{ exists []. rewrite app_nil_r. split; [done|]. left. auto. }
  destruct (l.1) as [k|] eqn:El.
  2:{ eexists. split; [done|]. left. auto. }
  simpl. destruct (_ <? 0) eqn:En.
  { apply Z.ltb_lt in En. eexists. split; [done|]. left.
    split; [|done]. right. right. by exists k. }
  apply Z.ltb_ge in En.
  destruct (_ <? 0); eexists; (split; [done|]); right;
    (split; [done|]); exists k; done.
Qed.

(** X7.  No context outlives the call: either no context was created and
    no engine call was made, or the calls begin with the creation of one
    context and end with the destruction of that context, whatever step
    failed in between; no other context is created or destroyed. *)
Theorem do_sign_node_destroys_its_context doc node key_file (w : World Env) :
  exists evs,
    w_engine (do_sign_node L doc node key_file w).2 = w_engine w ++ evs /\
    (evs = [] \/
     exists h,
       head evs = Some (EvCreate h) /\
       last evs = Some (EvDestroy h) /\
       created_contexts evs = [h] /\
       destroyed_contexts evs = [h]).
Proof.
  destruct (do_sign_node_paths doc node key_file w)
    as [[e ->] | [[e ->] | [[e ->] | [(e & doc' & ->) | (e & doc' & k & ->)]]]];
    simpl.
  - exists []. rewrite app_nil_r. split; [done|]. by left.
  - eexists. split; [done|]. right. by eexists.
  - eexists. split; [done|]. right. by eexists.
  - eexists. split; [done|]. right. by eexists.
  - eexists. split; [done|]. right. by eexists.
Qed.

Lemma created_contexts_app l1 l2 :
  created_contexts (l1 ++ l2) = created_contexts l1 ++ created_contexts l2.
Proof. apply omap_app. Qed.

Lemma destroyed_contexts_app l1 l2 :
  destroyed_contexts (l1 ++ l2) = destroyed_contexts l1 ++ destroyed_contexts l2.
Proof. apply omap_app. Qed.

Lemma first_signed_doc_app_None l1 l2 :
  first_signed_doc l1 = None ->
  first_signed_doc (l1 ++ l2) = first_signed_doc l2.
Proof.
  unfold first_signed_doc. rewrite omap_app.
  destruct (omap _ l1); [done | discriminate].
Qed.

(** The signing loop in terms of the three streams. *)
Lemma sign_nodes_loop_effect key_file tab :
  forall doc (w : World Env),
    loop_effect doc (sign_nodes L key_file tab doc w).1.2 w
      (sign_nodes L key_file tab doc w).2
      (sign_nodes L key_file tab doc w).1.1.
Proof.
  induction tab as [|x rest IH]; intros doc w; simpl.
  - exists [], [], []. rewrite !app_nil_r. simpl.
    repeat split; auto; try discriminate.
  - destruct x as [cur|ns next]; [|apply IH].
    destruct (is_element doc (XPNode cur)); [|apply IH].
    set (h := w_created w).
    destruct (do_sign_node_paths doc cur key_file w)
      as [[e ->] | [[e ->] | [[e ->] | [(e & doc' & ->) | (e & doc' & k & ->)]]]];
      simpl; fold h.
    + exists [], [E_create_context; E_sign_node], []. simpl.
      rewrite !app_nil_r, <- app_assoc.
      repeat split; auto; try discriminate.
    + exists [], [E_load_key key_file; E_sign_node],
        [EvCreate h; EvLoadKey h key_file; EvDestroy h].
      simpl. rewrite !app_nil_r, <- app_assoc.
      repeat split; auto; try discriminate; try lia.
    + exists [], [E_set_key_name key_file; E_sign_node],
        [EvCreate h; EvLoadKey h key_file; EvSetName h key_file; EvDestroy h].
      simpl. rewrite !app_nil_r, <- app_assoc.
      repeat split; auto; try discriminate; try lia.
    + exists [], [E_signature_failed; E_sign_node],
        [EvCreate h; EvLoadKey h key_file; EvSetName h key_file;
         EvSign h doc cur; EvDestroy h].
      simpl. rewrite !app_nil_r, <- app_assoc.
      repeat split; auto; try discriminate; try lia.
    + match goal with
      | |- context [sign_nodes L key_file rest doc' ?w1] =>
          destruct (IH doc' w1)
            as (out & err & evs & Hout & Herr & Hev & Hdump & Hst & Hok &
                Hfail & Hcr & Hbal & Hseq & Hfirst)
      end.
      simpl in *.
      exists (OutDSigCtxDebugDump (mkDSigCtx h (Some (mkKey k (Some key_file))))
              :: out), err,
        ([EvCreate h; EvLoadKey h key_file; EvSetName h key_file;
          EvSign h doc cur; EvDebugDump h; EvDestroy h] ++ evs).
      rewrite Hout, Herr, Hev, <- !app_assoc. simpl.
      split; [done|]. split; [done|]. split; [done|].
      split; [done|]. split; [done|].
      split.
      { intros Hrc. destruct (Hok Hrc) as (-> & Hl1 & Hl2). simpl.
        repeat split; auto. }
      split; [done|].
      split; [rewrite Hcr; lia|].
      split; [by rewrite Hbal|].
      split; [by rewrite Hseq at 1|].
      done.
Qed.

(** X8.  Entries that are not elements are passed over in silence: on a
    table without any element entry the loop makes no call, writes
    nothing, and answers 0 with the document and the world it was
    given. *)
Theorem sign_nodes_skips_non_elements key_file tab doc (w : World Env) :
  Forall (fun x => is_element doc x = false) tab ->
  sign_nodes L key_file tab doc w = (0, doc, w).
Proof.
  induction 1 as [|x rest Hx _ IH]; simpl; [done|].
  destruct x as [cur|ns next]; [|exact IH]. by rewrite Hx.
Qed.

(** X9.  The accounts of the loop.  Whatever its status, what it adds to
    stdout is debug dumps only and every context it creates is destroyed,
    in the order of creation.  When it answers 0 it wrote no diagnostic,
    and there is one debug dump and one signing call for each context it
    created; when it answers -1, stderr ends with the failed-to-sign-node
    diagnostic. *)
Theorem sign_nodes_accounts key_file tab doc (w : World Env) :
  exists out evs,
    w_stdout (sign_nodes L key_file tab doc w).2 = w_stdout w ++ out /\
    w_engine (sign_nodes L key_file tab doc w).2 = w_engine w ++ evs /\
    forallb is_debug_dump out = true /\
    created_contexts evs = destroyed_contexts evs /\
    ((sign_nodes L key_file tab doc w).1.1 = 0 ->
     w_stderr (sign_nodes L key_file tab doc w).2 = w_stderr w /\
     length out = length (created_contexts evs) /\
     length (sign_targets evs) = length (created_contexts evs)) /\
    ((sign_nodes L key_file tab doc w).1.1 = -1 ->
     last (w_stderr (sign_nodes L key_file tab doc w).2) = Some E_sign_node).
Proof.
  destruct (sign_nodes_loop_effect key_file tab doc w)
    as (out & err & evs & Hout & Herr & Hev & Hdump & _ & Hok & Hfail & _ &
        Hbal & _).
  exists out, evs. split; [done|]. split; [done|]. split; [done|].
  split; [done|]. split.
  - intros Hrc. destruct (Hok Hrc) as (-> & Hl1 & Hl2).
    rewrite Herr, app_nil_r. done.
  - intros Hrc. rewrite Herr. specialize (Hfail Hrc).
    destruct err as [|d err _] using rev_ind; [discriminate|].
    rewrite last_snoc in Hfail. rewrite app_assoc, last_snoc. done.
Qed.

(** X10.  The first signing call of the loop is made on the document the
    loop received, and a loop that makes no signing call returns that
    document. *)
Theorem sign_nodes_first_signature_on_input key_file tab doc (w : World Env) :
  exists evs,
    w_engine (sign_nodes L key_file tab doc w).2 = w_engine w ++ evs /\
    match first_signed_doc evs with
    | Some d => d = doc
    | None => (sign_nodes L key_file tab doc w).1.2 = doc
    end.
Proof.
  destruct (sign_nodes_loop_effect key_file tab doc w)
    as (out & err & evs & _ & _ & Hev & _ & _ & _ & _ & _ & _ & _ & Hfirst).
  exists evs. done.
Qed.

End SignerFacts.

Lemma sign_nodes_skips_non_elements_witness :
  Forall (fun x => is_element Sample.template x = false)
    [XPNamespace (mkNs "ds" Sample.dsig_ns) [1%nat]; XPNode [2%nat];
     XPNode [9%nat]] /\
  sign_nodes Sample.libs "rsakey.pem"
    [XPNamespace (mkNs "ds" Sample.dsig_ns) [1%nat]; XPNode [2%nat];
     XPNode [9%nat]]
    Sample.template (Sample.world 5)
  = (0, Sample.template, Sample.world 5).
Proof.
  assert (H : Forall (fun x => is_element Sample.template x = false)
    [XPNamespace (mkNs "ds" Sample.dsig_ns) [1%nat]; XPNode [2%nat];
     XPNode [9%nat]]).
  { repeat constructor. }
  split; [exact H|].
  exact (sign_nodes_skips_non_elements Sample.libs "rsakey.pem" _
           Sample.template (Sample.world 5) H).
Defined.

(** ** The listing, the registration and the driver *)

Lemma xmlHasProp_name doc node name attr :
  xmlHasProp doc node name = Some attr -> attr_name attr = name.
Proof.
  unfold xmlHasProp. destruct (deref doc node); [|discriminate].
  intros [_ H]%find_some. by apply String.eqb_eq.
Qed.

Lemma print_xpath_node_lines doc x :
  forallb is_listing_line (print_xpath_node doc x) = true /\
  (entry_valid doc x -> length (print_xpath_node doc x) = 1%nat).
Proof.
  unfold print_xpath_node, entry_valid.
  destruct x as [p|ns next].
  - destruct (deref doc p) as [cur|]; [|split; [done | by intros [? ?]]].
    destruct (xmlElementType_eqb _ _); [destruct (node_ns cur)|]; done.
  - destruct (deref doc next) as [cur|]; [|split; [done | by intros [? ?]]].
    destruct (node_ns cur); done.
Qed.

Lemma print_xpath_nodes_shape doc nodes :
  exists lines,
    print_xpath_nodes doc nodes =
    OutResult (Z.of_nat (length (match nodes with
                                 | Some s => nodeTab s
                                 | None => []
                                 end))) :: lines /\
    forallb is_listing_line lines = true.
Proof.
  unfold print_xpath_nodes. eexists. split; [done|].
  induction (match nodes with Some s => nodeTab s | None => [] end)
    as [|x tab IH]; simpl; [done|].
  rewrite forallb_app, IH, (proj1 (print_xpath_node_lines doc x)). done.
Qed.

(** X11.  The listing begins with the number of entries of the table, 0
    for a NULL node set, followed by the lines of the entries in the
    order of the table: one line, the line of that entry, for each entry
    whose pointer designates a node.  It holds listing lines only. *)
Theorem print_xpath_nodes_one_line_per_entry doc tab :
  Forall (entry_valid doc) tab ->
  exists lines,
    print_xpath_nodes doc (Some (mkNodeSet tab))
    = OutResult (Z.of_nat (length tab)) :: lines /\
    Forall2 (fun x line => print_xpath_node doc x = [line]) tab lines /\
    forallb is_listing_line lines = true /\
    print_xpath_nodes doc None = [OutResult 0].
Proof.
  intros Hvalid. unfold print_xpath_nodes. simpl. eexists. split; [done|].
  split; [|split; [|done]].
  - induction Hvalid as [|x rest Hx _ IH]; simpl; [constructor|].
    pose proof (proj2 (print_xpath_node_lines doc x) Hx) as Hlen.
    destruct (print_xpath_node doc x) as [|line [|? ?]] eqn:Eline;
      try discriminate.
    simpl. by constructor.
  - induction tab as [|x rest IH]; simpl; [done|].
    apply Forall_cons in Hvalid as [_ Hvalid].
    rewrite forallb_app, (IH Hvalid), (proj1 (print_xpath_node_lines doc x)).
    done.
Qed.

Section DriverRuns.

Context {Env : Type} (L : Libs Env).

(** X12.  [RegisterID] touches nothing but the table of identifiers and
    stderr: the tree, the environment, stdout and the engine log are as
    before; it answers 0 without a diagnostic, or -1 with the document
    unchanged and exactly one diagnostic that names the attribute. *)
Theorem RegisterID_frame doc node idName (w : World Env) :
  doc_root (RegisterID L doc node idName w).1.2 = doc_root doc /\
  w_env (RegisterID L doc node idName w).2 = w_env w /\
  w_stdout (RegisterID L doc node idName w).2 = w_stdout w /\
  w_engine (RegisterID L doc node idName w).2 = w_engine w /\
  w_created (RegisterID L doc node idName w).2 = w_created w /\
  (((RegisterID L doc node idName w).1.1 = 0 /\
    w_stderr (RegisterID L doc node idName w).2 = w_stderr w) \/
   ((RegisterID L doc node idName w).1.1 = -1 /\
    (RegisterID L doc node idName w).1.2 = doc /\
    exists d,
      w_stderr (RegisterID L doc node idName w).2 = w_stderr w ++ [d] /\
      (d = E_get_attribute idName \/ d = E_get_attribute_value idName))).
Proof.
  unfold RegisterID.
  destruct (xmlHasProp doc node idName) as [attr|]; simpl.
  2:{ repeat split; auto. right. repeat split; auto. eauto. }
  destruct (attr_children attr) as [|t ts]; simpl.
  { repeat split; auto. right. repeat split; auto. eauto. }
  destruct (xmlNodeListGetString L doc (t :: ts)); simpl.
  - repeat split; auto.
  - repeat split; auto. right. repeat split; auto. eauto.
Qed.

(** X13.  With a library whose [xmlAddID] records a value that is free in
    the table, registering the identifier of a node makes it resolvable:
    when the value read from the attribute is not yet in [doc->ids],
    [xmlGetID] on the document that [RegisterID] returns gives the
    attribute of that name on that node. *)
Theorem RegisterID_then_xmlGetID doc node idName (w : World Env) attr name :
  (forall ids value a, ids !! value = None ->
                       xmlAddID L ids value a !! value = Some a) ->
  xmlHasProp doc node idName = Some attr ->
  attr_children attr <> [] ->
  xmlNodeListGetString L doc (attr_children attr) = Some name ->
  xmlGetID doc name = None ->
  (RegisterID L doc node idName w).1.1 = 0 /\
  xmlGetID (RegisterID L doc node idName w).1.2 name = Some (node, idName).
Proof.
  intros Hadd Hattr Hch Hname Hfree. unfold RegisterID. rewrite Hattr.
  destruct (attr_children attr) as [|t ts] eqn:Ech; [done|].
  rewrite Hname. simpl. split; [done|].
  unfold xmlGetID in *. simpl. rewrite (xmlHasProp_name _ _ _ _ Hattr).
  by apply Hadd.
Qed.

(** A run of [sign_file] either stops before the loop, or reaches the
    loop with both identifiers registered and the listing printed. *)
Lemma sign_file_run tmpl_file key_file (w : World Env) :
  ((sign_file L tmpl_file key_file w).1 = -1 /\
   w_engine (sign_file L tmpl_file key_file w).2 = w_engine w /\
   w_created (sign_file L tmpl_file key_file w).2 = w_created w /\
   doc_dumps (w_stdout (sign_file L tmpl_file key_file w).2)
   = doc_dumps (w_stdout w) /\
   exists err,
     w_stderr (sign_file L tmpl_file key_file w).2 = w_stderr w ++ err /\
     err <> []) \/
  (exists doc0 e0 certs cert n1 n2 e2 nodes,
      xmlReadFile L tmpl_file (w_env w) = (Some doc0, e0) /\
      xmlSecFindNode doc0 [] xmlSecNodeCertificates xmlSecNodeCertificatesNS
      = Some certs /\
      xmlSecFindNode doc0 [] "certificate" xmlSecNodeCertificatesNS
      = Some cert /\
      sign_file L tmpl_file key_file w =
      sign_and_dump L key_file
        (match nodes with Some s => nodeTab s | None => [] end)
        (mkDoc (doc_root doc0)
           (xmlAddID L (xmlAddID L (doc_ids doc0) n1 (certs, "id"))
              n2 (cert, "id")))
        (log_out (put_env w e2)
           (print_xpath_nodes
              (mkDoc (doc_root doc0)
                 (xmlAddID L (xmlAddID L (doc_ids doc0) n1 (certs, "id"))
                    n2 (cert, "id")))
              nodes))).
Proof.
  assert (Hprint : forall doc nodes,
             doc_dumps (print_xpath_nodes doc nodes) = []).
  { intros doc nodes. destruct (print_xpath_nodes_shape doc nodes)
      as (lines & -> & Hlines). simpl.
    induction lines as [|o lines IH]; [done|]. simpl in Hlines.
    apply andb_prop in Hlines as [Ho Hlines]. simpl.
    destruct o; try discriminate; by apply IH. }
  assert (Hone : forall (l : list diag) d, exists err,
             l ++ [d] = l ++ err /\ err <> []).
  { intros l d. by exists [d]. }
  unfold sign_file. generalize (to_c nsList). intros nsl.
  destruct (xmlReadFile L tmpl_file (w_env w)) as [parsed e0] eqn:Eread.
  destruct parsed as [doc0|]; [|left; simpl; repeat split; auto].
  unfold xmlDocGetRootElement.
  destruct (doc_root doc0) as [r|] eqn:Eroot;
    [|left; simpl; repeat split; auto].
  destruct (xmlSecFindNode doc0 [] xmlSecNodeCertificates xmlSecNodeCertificatesNS)
    as [certsNode|] eqn:Ecerts; [|left; simpl; repeat split; auto].
  destruct (RegisterID_cases L doc0 certsNode "id" (put_env w e0))
    as [(a1 & n1 & Ha1 & _ & _ & ->) | (d1 & -> & _)].
  2:{ left; simpl; repeat split; auto. exists [d1; E_register_id_certsNode].
      by rewrite <- app_assoc. }
  rewrite (xmlHasProp_name _ _ _ _ Ha1).
  simpl. set (doc1 := mkDoc (doc_root doc0) _).
  rewrite (xmlSecFindNode_root doc0 doc1) by done.
  destruct (xmlSecFindNode doc0 [] "certificate" xmlSecNodeCertificatesNS)
    as [certNode|] eqn:Ecert; [|left; simpl; repeat split; auto].
  destruct (RegisterID_cases L doc1 certNode "id" (put_env w e0))
    as [(a2 & n2 & Ha2 & _ & _ & ->) | (d2 & -> & _)].
  2:{ left; simpl; repeat split; auto. exists [d2; E_register_id_certNode].
      by rewrite <- app_assoc. }
  rewrite (xmlHasProp_name _ _ _ _ Ha2).
  simpl. set (doc2 := mkDoc (doc_root doc0) _).
  destruct (xmlXPathNewContext L doc2 e0) as [ctx e1].
  destruct ctx as [xpathCtx|]; [|left; simpl; repeat split; auto].
  pose proof (register_namespaces_status (xmlXPathRegisterNs L) xpathCtx nsl)
    as Hns.
  destruct (register_namespaces (xmlXPathRegisterNs L) xpathCtx nsl)
    as [[rc xpathCtx'] msgs].
  simpl in Hns. destruct Hns as [[-> ->] | ->]; simpl.
  2:{ left; simpl; repeat split; auto.
      exists (msgs ++ [E_register_ns_list nsList]).
      rewrite app_assoc. split; [done|]. by destruct msgs. }
  destruct (xmlXPathEvalExpression L xpathExpr xpathCtx' doc2 e1) as [obj e2].
  destruct obj as [xpathObj|]; simpl.
  2:{ left; simpl; repeat split; auto. rewrite app_nil_r. auto. }
  rewrite (xmlSecFindNode_root doc0 doc2) by done.
  destruct (xmlSecFindNode doc0 [] (xmlSecNodeSignature L) (xmlSecDSigNs L))
    as [sigNode|] eqn:Esig.
  2:{ left; simpl; repeat split; auto.
      - by rewrite doc_dumps_app, Hprint, app_nil_r.
      - rewrite app_nil_r. auto. }
  right. exists doc0, e0, certsNode, certNode, n1, n2, e2, (nodesetval xpathObj).
  split; [done|]. split; [done|]. split; [done|].
  unfold sign_and_dump. fold doc1. fold doc2.
  replace (log_out (put_env w e2) (print_xpath_nodes doc2 (nodesetval xpathObj)))
    with (log_out (put_env (log_err (put_env (put_env w e0) e1) []) e2)
            (print_xpath_nodes doc2 (nodesetval xpathObj)));
    [done|].
  unfold log_out, put_env, log_err. simpl. by rewrite app_nil_r.
Qed.

(** What [sign_file] adds to stderr, and when. *)
Lemma sign_file_stderr tmpl_file key_file (w : World Env) :
  exists err,
    w_stderr (sign_file L tmpl_file key_file w).2 = w_stderr w ++ err /\
    (((sign_file L tmpl_file key_file w).1 = 0 /\ err = []) \/
     ((sign_file L tmpl_file key_file w).1 = -1 /\ err <> [])).
Proof.
  destruct (sign_file_run tmpl_file key_file w)
    as [(Hrc & _ & _ & _ & err & Herr & Hne) |
        (doc0 & e0 & certs & cert & n1 & n2 & e2 & nodes & _ & _ & _ & ->)].
  - exists err. split; [done|]. by right.
  - unfold sign_and_dump.
    match goal with
    | |- context [sign_nodes L key_file ?t ?d ?w1] =>
        destruct (sign_nodes_loop_effect L key_file t d w1)
          as (out & err & evs & _ & Herr & _ & _ & Hst & Hok & Hfail & _);
        destruct (sign_nodes L key_file t d w1) as [[rc doc3] w3]
    end.
    simpl in *. exists err. destruct Hst as [-> | ->]; simpl.
    + split; [done|]. left. split; [done|]. by destruct (Hok eq_refl).
    + split; [done|]. right. split; [done|]. specialize (Hfail eq_refl).
      intros ->. discriminate.
Qed.

(** X14.  [sign_file] reports every failure and only failures: what it
    adds to stderr is empty exactly when it answers 0, and it answers -1
    otherwise. *)
Theorem sign_file_reports_failure tmpl_file key_file (w : World Env) :
  exists err,
    w_stderr (sign_file L tmpl_file key_file w).2 = w_stderr w ++ err /\
    ((sign_file L tmpl_file key_file w).1 = 0 <-> err = []) /\
    ((sign_file L tmpl_file key_file w).1 = -1 <-> err <> []).
Proof.
  destruct (sign_file_stderr tmpl_file key_file w)
    as (err & Herr & [[Hrc ->] | [Hrc Hne]]); eexists; (split; [exact Herr|]);
    rewrite Hrc; split; split; try done.
Qed.

(** X15.  Both identifiers are registered before anything is signed: in
    a run that starts with an empty engine log, the document of the first
    signing call has the tree that was parsed and a table of identifiers
    obtained by [xmlAddID] for the [id] attribute of the container and
    then for the [id] attribute of the certificate, both found from the
    root. *)
Theorem sign_file_registers_before_signing tmpl_file key_file (w : World Env)
    doc0 e0 d :
  w_engine w = [] ->
  xmlReadFile L tmpl_file (w_env w) = (Some doc0, e0) ->
  first_signed_doc (w_engine (sign_file L tmpl_file key_file w).2) = Some d ->
  doc_root d = doc_root doc0 /\
  exists certs cert n1 n2,
    xmlSecFindNode doc0 [] xmlSecNodeCertificates xmlSecNodeCertificatesNS
    = Some certs /\
    xmlSecFindNode doc0 [] "certificate" xmlSecNodeCertificatesNS
    = Some cert /\
    doc_ids d = xmlAddID L (xmlAddID L (doc_ids doc0) n1 (certs, "id"))
                  n2 (cert, "id").
Proof.
  intros Hempty Hread.
  destruct (sign_file_run tmpl_file key_file w)
    as [(_ & Heng & _) |
        (doc0' & e0' & certs & cert & n1 & n2 & e2 & nodes & Hread' & Hc1 &
         Hc2 & ->)].
  - rewrite Heng, Hempty. discriminate.
  - rewrite Hread in Hread'. injection Hread' as <- <-.
    unfold sign_and_dump.
    match goal with
    | |- context [sign_nodes L key_file ?t ?dd ?w1] =>
        destruct (sign_nodes_loop_effect L key_file t dd w1)
          as (out & err & evs & _ & _ & Hev & _ & _ & _ & _ & _ & _ & _ & Hfirst);
        destruct (sign_nodes L key_file t dd w1) as [[rc doc3] w3]
    end.
    simpl in Hev, Hfirst. rewrite Hempty in Hev. simpl in Hev.
    assert (Hlog : forall r : Z * World Env,
               r = (if rc <? 0 then (-1, w3)
                    else (0, log_out w3 [OutDocDump doc3])) ->
               w_engine r.2 = evs).
    { intros r ->. by destruct (rc <? 0). }
    rewrite (Hlog _ eq_refl). intros Hd. rewrite Hd in Hfirst. subst d.
    simpl. split; [done|]. by exists certs, cert, n1, n2.
Qed.

(** X16.  What a successful run leaves on stdout: the listing of the
    query result (its header, then listing lines), then the debug dumps
    of the signing contexts, then the document, once, at the very end. *)
Theorem sign_file_stdout_on_success tmpl_file key_file (w : World Env) :
  (sign_file L tmpl_file key_file w).1 = 0 ->
  exists size lines dumps d,
    w_stdout (sign_file L tmpl_file key_file w).2
    = w_stdout w ++ OutResult size :: lines ++ dumps ++ [OutDocDump d] /\
    forallb is_listing_line lines = true /\
    forallb is_debug_dump dumps = true.
Proof.
  destruct (sign_file_run tmpl_file key_file w)
    as [(Hrc & _) |
        (doc0 & e0 & certs & cert & n1 & n2 & e2 & nodes & _ & _ & _ & ->)].
  - rewrite Hrc. discriminate.
  - unfold sign_and_dump.
    match goal with
    | |- context [sign_nodes L key_file ?t ?dd ?w1] =>
        destruct (sign_nodes_loop_effect L key_file t dd w1)
          as (out & err & evs & Hout & _ & _ & Hdump & _);
        destruct (sign_nodes L key_file t dd w1) as [[rc doc3] w3]
    end.
    simpl in Hout. destruct (rc <? 0); simpl; [discriminate|]. intros _.
    match goal with
    | H : context [print_xpath_nodes ?dd nodes] |- _ =>
        destruct (print_xpath_nodes_shape dd nodes) as (lines & Hl & Hlines);
        rewrite Hl in H
    end.
    eexists _, lines, out, doc3. split; [|done].
    rewrite Hout, <- !app_assoc. done.
Qed.

(** What [main] adds to stderr, case by case. *)
Lemma main_paths argc argv (w : World Env) :
  let e1 := (xmlSecInit L (w_env w)).2 in
  let e2 := (xmlSecCheckVersion L e1).2 in
  let e3 := (xmlSecCryptoAppInit L e2).2 in
  (exists d ds, (argc <> 3 \/
                (xmlSecInit L (w_env w)).1 < 0 \/
                (xmlSecCheckVersion L e1).1 <> 1 \/
                (xmlSecCryptoAppInit L e2).1 < 0 \/
                (xmlSecCryptoInit L e3).1 < 0) /\
               (main L argc argv w).1 <> 0 /\
               w_stdout (main L argc argv w).2 = w_stdout w /\
               w_engine (main L argc argv w).2 = w_engine w /\
               w_stderr (main L argc argv w).2 = w_stderr w ++ d :: ds) \/
  (argc = 3 /\
   0 <= (xmlSecInit L (w_env w)).1 /\
   (xmlSecCheckVersion L e1).1 = 1 /\
   0 <= (xmlSecCryptoAppInit L e2).1 /\
   0 <= (xmlSecCryptoInit L e3).1 /\
   main L argc argv w =
   sign_file L (List.nth 1 argv "") (List.nth 2 argv "") (initialised L w)).
Proof.
  unfold main, initialised.
  destruct (argc =? 3) eqn:Eargc; simpl.
  2:{ left. apply Z.eqb_neq in Eargc. eexists _, _. repeat split; eauto. }
  apply Z.eqb_eq in Eargc.
  destruct (xmlSecInit L (w_env w)) as [r1 e1]; simpl.
  destruct (r1 <? 0) eqn:E1; simpl.
  { left. apply Z.ltb_lt in E1. eexists _, _. repeat split; eauto. }
  apply Z.ltb_ge in E1.
  destruct (xmlSecCheckVersion L e1) as [r2 e2]; simpl.
  destruct (r2 =? 1) eqn:E2; simpl.
  2:{ left. apply Z.eqb_neq in E2. eexists _, _. repeat split; eauto 6. }
  apply Z.eqb_eq in E2.
  destruct (xmlSecCryptoAppInit L e2) as [r3 e3]; simpl.
  destruct (r3 <? 0) eqn:E3; simpl.
  { left. apply Z.ltb_lt in E3. eexists _, _. repeat split; eauto 6. }
  apply Z.ltb_ge in E3.
  destruct (xmlSecCryptoInit L e3) as [r4 e4]; simpl.
  destruct (r4 <? 0) eqn:E4; simpl.
  { left. apply Z.ltb_lt in E4. eexists _, _. repeat split; eauto 7. }
  apply Z.ltb_ge in E4. right.
  change (put_env (put_env (put_env (put_env w e1) e2) e3) e4)
    with (put_env w e4).
  repeat split; auto; try lia.
  destruct (sign_file_stderr (List.nth 1 argv "") (List.nth 2 argv "")
              (put_env w e4)) as (err & _ & [[Hrc _] | [Hrc _]]);
    destruct (sign_file L (List.nth 1 argv "") (List.nth 2 argv "")
                (put_env w e4)) as [rc w']; simpl in *; by subst rc.
Qed.

(** X17.  When the argument count is wrong or an initialisation step
    fails, [main] returns a non-zero value without reading the template:
    nothing is written to stdout and no engine call is made. *)
Theorem main_stops_before_sign_file argc argv (w : World Env) :
  let e1 := (xmlSecInit L (w_env w)).2 in
  let e2 := (xmlSecCheckVersion L e1).2 in
  let e3 := (xmlSecCryptoAppInit L e2).2 in
  argc <> 3 \/
  (xmlSecInit L (w_env w)).1 < 0 \/
  (xmlSecCheckVersion L e1).1 <> 1 \/
  (xmlSecCryptoAppInit L e2).1 < 0 \/
  (xmlSecCryptoInit L e3).1 < 0 ->
  (main L argc argv w).1 <> 0 /\
  w_stdout (main L argc argv w).2 = w_stdout w /\
  w_engine (main L argc argv w).2 = w_engine w.
Proof.
  intros e1 e2 e3 Hbad.
  destruct (main_paths argc argv w)
    as [(d & ds & _ & Hrc & Hout & Heng & _) | (Ha & H1 & H2 & H3 & H4 & _)];
    [done|].
  fold e1 e2 e3 in H2, H3, H4. lia.
Qed.

(** X18.  [main] reports every failure and only failures: it returns 0
    exactly when the run added nothing to stderr. *)
Theorem main_reports_failure argc argv (w : World Env) :
  exists err,
    w_stderr (main L argc argv w).2 = w_stderr w ++ err /\
    ((main L argc argv w).1 = 0 <-> err = []).
Proof.
  destruct (main_paths argc argv w)
    as [(d & ds & _ & Hrc & _ & _ & Herr) | (_ & _ & _ & _ & _ & ->)].
  - exists (d :: ds). split; [done|]. split; [done | discriminate].
  - destruct (sign_file_stderr (List.nth 1 argv "") (List.nth 2 argv "")
                (initialised L w)) as (err & Herr & [[Hrc ->] | [Hrc Hne]]).
    + exists []. split; [exact Herr|]. done.
    + exists err. split; [exact Herr|]. rewrite Hrc. split; [discriminate|done].
Qed.

End DriverRuns.

Lemma print_xpath_nodes_one_line_per_entry_witness :
  Forall (entry_valid Sample.template)
    [XPNode [3%nat]; XPNode [2%nat];
     XPNamespace (mkNs "ds" Sample.dsig_ns) [1%nat]] /\
  exists lines,
    print_xpath_nodes Sample.template
      (Some (mkNodeSet [XPNode [3%nat]; XPNode [2%nat];
                        XPNamespace (mkNs "ds" Sample.dsig_ns) [1%nat]]))
    = OutResult 3 :: lines /\
    Forall2 (fun x line => print_xpath_node Sample.template x = [line])
      [XPNode [3%nat]; XPNode [2%nat];
       XPNamespace (mkNs "ds" Sample.dsig_ns) [1%nat]] lines /\
    forallb is_listing_line lines = true /\
    print_xpath_nodes Sample.template None = [OutResult 0].
Proof.
  assert (H : Forall (entry_valid Sample.template)
    [XPNode [3%nat]; XPNode [2%nat];
     XPNamespace (mkNs "ds" Sample.dsig_ns) [1%nat]]).
  { repeat constructor; by eexists. }
  split; [exact H|].
  exact (print_xpath_nodes_one_line_per_entry Sample.template _ H).
Defined.

(** The listing of that table: the signature element, the text node (its
    type is 3), the namespace node with the element it belongs to. *)
Example print_xpath_nodes_sample :
  print_xpath_nodes Sample.template
    (Some (mkNodeSet [XPNode [3%nat]; XPNode [2%nat];
                      XPNamespace (mkNs "ds" Sample.dsig_ns) [1%nat]]))
  = [OutResult 3; OutElementNs Sample.dsig_ns "Signature"; OutNode "text" 3;
     OutNamespaceOfNsNode "ds" Sample.dsig_ns Sample.dsig_ns "Signature"].
Proof. reflexivity. Qed.

Lemma sample_add_id_records_free_values :
  forall (ids : gmap string xmlAttrPtr) value a,
    ids !! value = None -> xmlAddID Sample.libs ids value a !! value = Some a.
Proof.
  intros ids value a Hfree. simpl. unfold Sample.add_id. rewrite Hfree.
  apply lookup_insert_eq.
Defined.

Lemma RegisterID_then_xmlGetID_witness :
  (forall (ids : gmap string xmlAttrPtr) value a,
      ids !! value = None ->
      xmlAddID Sample.libs ids value a !! value = Some a) /\
  xmlHasProp Sample.template [0%nat] "id" = Some (mkAttr "id" ["certs1"]) /\
  attr_children (mkAttr "id" ["certs1"]) <> [] /\
  xmlNodeListGetString Sample.libs Sample.template
    (attr_children (mkAttr "id" ["certs1"])) = Some "certs1" /\
  xmlGetID Sample.template "certs1" = None /\
  (RegisterID Sample.libs Sample.template [0%nat] "id" (Sample.world 0)).1.1 = 0 /\
  xmlGetID (RegisterID Sample.libs Sample.template [0%nat] "id"
              (Sample.world 0)).1.2 "certs1"
  = Some ([0%nat], "id").
Proof.
  assert (H2 : xmlHasProp Sample.template [0%nat] "id"
               = Some (mkAttr "id" ["certs1"])) by reflexivity.
  assert (H3 : attr_children (mkAttr "id" ["certs1"]) <> []) by discriminate.
  assert (H4 : xmlNodeListGetString Sample.libs Sample.template
                 (attr_children (mkAttr "id" ["certs1"])) = Some "certs1")
    by reflexivity.
  assert (H5 : xmlGetID Sample.template "certs1" = None) by reflexivity.
  split; [exact sample_add_id_records_free_values|].
  split; [exact H2|]. split; [exact H3|]. split; [exact H4|].
  split; [exact H5|].
  exact (RegisterID_then_xmlGetID Sample.libs Sample.template [0%nat] "id"
           (Sample.world 0) _ _ sample_add_id_records_free_values H2 H3 H4 H5).
Defined.

Lemma sign_file_registers_before_signing_witness :
  w_engine (Sample.world 5) = [] /\
  xmlReadFile Sample.libs "tmpl.xml" (w_env (Sample.world 5))
  = (Some Sample.template, w_env (Sample.world 5)) /\
  first_signed_doc
    (w_engine (sign_file Sample.libs "tmpl.xml" "rsakey.pem"
                 (Sample.world 5)).2)
  = Some sample_registered_template /\
  doc_root sample_registered_template = doc_root Sample.template /\
  exists certs cert n1 n2,
    xmlSecFindNode Sample.template [] xmlSecNodeCertificates
      xmlSecNodeCertificatesNS = Some certs /\
    xmlSecFindNode Sample.template [] "certificate" xmlSecNodeCertificatesNS
    = Some cert /\
    doc_ids sample_registered_template
    = xmlAddID Sample.libs
        (xmlAddID Sample.libs (doc_ids Sample.template) n1 (certs, "id"))
        n2 (cert, "id").
Proof.
  assert (H1 : w_engine (Sample.world 5) = []) by reflexivity.
  assert (H2 : xmlReadFile Sample.libs "tmpl.xml" (w_env (Sample.world 5))
               = (Some Sample.template, w_env (Sample.world 5)))
    by reflexivity.
  assert (H3 : first_signed_doc
                 (w_engine (sign_file Sample.libs "tmpl.xml" "rsakey.pem"
                              (Sample.world 5)).2)
               = Some sample_registered_template) by (vm_compute; reflexivity).
  split; [exact H1|]. split; [exact H2|]. split; [exact H3|].
  exact (sign_file_registers_before_signing Sample.libs "tmpl.xml" "rsakey.pem"
           (Sample.world 5) _ _ _ H1 H2 H3).
Defined.

Lemma sign_file_stdout_on_success_witness :
  (sign_file Sample.libs "tmpl.xml" "rsakey.pem" (Sample.world 5)).1 = 0 /\
  exists size lines dumps d,
    w_stdout (sign_file Sample.libs "tmpl.xml" "rsakey.pem" (Sample.world 5)).2
    = w_stdout (Sample.world 5)
      ++ OutResult size :: lines ++ dumps ++ [OutDocDump d] /\
    forallb is_listing_line lines = true /\
    forallb is_debug_dump dumps = true.
Proof.
  assert (H : (sign_file Sample.libs "tmpl.xml" "rsakey.pem"
                 (Sample.world 5)).1 = 0) by (vm_compute; reflexivity).
  split; [exact H|].
  exact (sign_file_stdout_on_success Sample.libs "tmpl.xml" "rsakey.pem"
           (Sample.world 5) H).
Defined.

Lemma main_stops_before_sign_file_witness :
  (3 <> 3 \/
   (xmlSecInit (with_version Sample.libs 0) (w_env (Sample.world 5))).1 < 0 \/
   (xmlSecCheckVersion (with_version Sample.libs 0)
      (xmlSecInit (with_version Sample.libs 0) (w_env (Sample.world 5))).2).1
   <> 1 \/
   (xmlSecCryptoAppInit (with_version Sample.libs 0)
      (xmlSecCheckVersion (with_version Sample.libs 0)
         (xmlSecInit (with_version Sample.libs 0)
            (w_env (Sample.world 5))).2).2).1 < 0 \/
   (xmlSecCryptoInit (with_version Sample.libs 0)
      (xmlSecCryptoAppInit (with_version Sample.libs 0)
         (xmlSecCheckVersion (with_version Sample.libs 0)
            (xmlSecInit (with_version Sample.libs 0)
               (w_env (Sample.world 5))).2).2).2).1 < 0) /\
  (main (with_version Sample.libs 0) 3 ["sign1"; "tmpl.xml"; "rsakey.pem"]
     (Sample.world 5)).1 <> 0 /\
  w_stdout (main (with_version Sample.libs 0) 3
              ["sign1"; "tmpl.xml"; "rsakey.pem"] (Sample.world 5)).2
  = w_stdout (Sample.world 5) /\
  w_engine (main (with_version Sample.libs 0) 3
              ["sign1"; "tmpl.xml"; "rsakey.pem"] (Sample.world 5)).2
  = w_engine (Sample.world 5).
Proof.
  assert (H : (xmlSecCheckVersion (with_version Sample.libs 0)
                 (xmlSecInit (with_version Sample.libs 0)
                    (w_env (Sample.world 5))).2).1 <> 1) by discriminate.
  split; [right; right; left; exact H|].
  exact (main_stops_before_sign_file (with_version Sample.libs 0) 3
           ["sign1"; "tmpl.xml"; "rsakey.pem"] (Sample.world 5)
           (or_intror (or_intror (or_introl H)))).
Defined.

(** X19.  Spaces before the first binding do not count: a list and the
    same list with spaces put in front of it have the same status, the
    same registrations and the same diagnostic, whether the list is well
    formed or not. *)
Theorem register_namespaces_ignores_leading_spaces
    (reg : xmlXPathContext -> string -> string -> Z * xmlXPathContext)
    xpathCtx k l :
  register_namespaces reg xpathCtx (replicate k " "%char ++ l)
  = register_namespaces reg xpathCtx l.
Proof.
  unfold register_namespaces, xmlStrdup.
  rewrite (register_namespaces_loop_body reg (replicate k " "%char ++ l)),
    (register_namespaces_loop_body reg l), skip_spaces_replicate.
  done.
Qed.

(** * The driver, step by step *)

(** ** The signing loop, call by call *)







Lemma register_namespaces_diags reg xpathCtx l :
  forallb not_find_node (register_namespaces reg xpathCtx l).2 = true.
Proof.
  unfold register_namespaces, xmlStrdup.
  remember (length l) as n eqn:Hn. assert (Hle : (length l <= n)%nat) by lia.
  clear Hn. revert l xpathCtx Hle.
  induction n as [n IH] using lt_wf_ind. intros next xpathCtx Hle.
  rewrite register_namespaces_loop_body.
  pose proof (skip_spaces_length next) as Hskip.
  destruct (skip_spaces next) as [|c r]; [done|].
  cbv zeta.
  assert (Hlen : (0 < length (c :: r) <= length next)%nat) by (simpl in *; lia).
  revert Hlen. generalize (c :: r). clear Hskip. intros s Hlen.
  destruct (xmlStrchr s "="%char) as [i|]; [|done].
  destruct (xmlStrchr (drop (S i) s) " "%char) as [j|].
  - destruct (reg xpathCtx _ _) as [rc ctx']. destruct (rc =? 0); simpl; [|done].
    apply (IH (length (drop (S j) (drop (S i) s)))); [|done].
    rewrite !length_drop. lia.
  - destruct (reg xpathCtx _ _) as [rc ctx']. by destruct (rc =? 0).
Qed.

Section DriverSteps.

Context {Env : Type} (L : Libs Env).


(** ** The run up to the loop *)






(** ** The claims on a whole run *)



(** ** The certificate nodes *)

Lemma sign_nodes_diags key_file tab :
  forall doc (w : World Env),
    exists err,
      w_stderr (sign_nodes L key_file tab doc w).2 = w_stderr w ++ err /\
      forallb not_find_node err = true.
Proof.
  induction tab as [|x rest IH]; intros doc w; simpl.
  { exists []. by rewrite app_nil_r. }
  destruct x as [cur|ns next]; [|apply IH].
  destruct (is_element doc (XPNode cur)); [|apply IH].
  destruct (do_sign_node_paths L doc cur key_file w)
    as [[e ->] | [[e ->] | [[e ->] | [(e & doc' & ->) | (e & doc' & k & ->)]]]];
    simpl.
  - exists [E_create_context; E_sign_node]. by rewrite <- app_assoc.
  - exists [E_load_key key_file; E_sign_node]. by rewrite <- app_assoc.
  - exists [E_set_key_name key_file; E_sign_node]. by rewrite <- app_assoc.
  - exists [E_signature_failed; E_sign_node]. by rewrite <- app_assoc.
  - match goal with
    | |- context [sign_nodes L key_file rest doc' ?w1] =>
        destruct (IH doc' w1) as (err & Herr & Hkind)
    end.
    exists err. done.
Qed.

Lemma RegisterID_outcome doc node idName (w : World Env) :
  (exists doc',
      RegisterID L doc node idName w = (0, doc', w) /\
      doc_root doc' = doc_root doc) \/
  (exists d,
      RegisterID L doc node idName w = (-1, doc, log_err w [d]) /\
      not_find_node d = true).
Proof.
  unfold RegisterID.
  destruct (xmlHasProp doc node idName) as [attr|]; [|right; eauto].
  destruct (attr_children attr) as [|t ts]; [right; eauto|].
  destruct (xmlNodeListGetString L doc (t :: ts)); [left | right]; eauto.
Qed.

Lemma RegisterID_status_world doc node idName (w1 w2 : World Env) :
  (RegisterID L doc node idName w1).1 = (RegisterID L doc node idName w2).1.
Proof.
  unfold RegisterID.
  destruct (xmlHasProp doc node idName) as [attr|]; [|done].
  destruct (attr_children attr) as [|t ts]; [done|].
  by destruct (xmlNodeListGetString L doc (t :: ts)).
Qed.

(** When [sign_file] writes the diagnostic of a node that was not
    found. *)
Lemma sign_file_find_node tmpl_file key_file (w : World Env) doc0 e0 :
  xmlReadFile L tmpl_file (w_env w) = (Some doc0, e0) ->
  let missing :=
    is_Some (doc_root doc0) /\
    (xmlSecFindNode doc0 [] xmlSecNodeCertificates xmlSecNodeCertificatesNS
     = None \/
     exists certs,
       xmlSecFindNode doc0 [] xmlSecNodeCertificates xmlSecNodeCertificatesNS
       = Some certs /\
       (RegisterID L doc0 certs "id" w).1.1 = 0 /\
       xmlSecFindNode doc0 [] "certificate" xmlSecNodeCertificatesNS = None) in
  exists err,
    w_stderr (sign_file L tmpl_file key_file w).2 = w_stderr w ++ err /\
    ((missing /\ err = [E_find_node xmlSecNodeCertificates]) \/
     (~ missing /\ forallb not_find_node err = true)).
Proof.
  intros Hread missing. subst missing.
  unfold sign_file. generalize (to_c nsList). intros nsl.
  rewrite Hread. unfold xmlDocGetRootElement.
  destruct (doc_root doc0) as [root|] eqn:Eroot.
  2:{ eexists. split; [done|]. right. split; [|done]. by intros [[? ?] _]. }
  destruct (xmlSecFindNode doc0 [] xmlSecNodeCertificates xmlSecNodeCertificatesNS)
    as [certs|] eqn:Ecerts.
  2:{ eexists. split; [done|]. left. split; [|done]. split; [by eexists|].
      by left. }
  pose proof (RegisterID_status_world doc0 certs "id" (put_env w e0) w) as Hsame.
  destruct (RegisterID_outcome doc0 certs "id" (put_env w e0))
    as [(doc1 & Heq1 & Hroot1) | (d1 & Heq1 & Hd1)];
    rewrite Heq1 in Hsame |- *; simpl in Hsame |- *.
  2:{ exists [d1; E_register_id_certsNode]. rewrite <- app_assoc.
      split; [done|]. right. split; [|simpl; by rewrite Hd1].
      intros [_ [H | (c & Hc & Hr & _)]]; [done|].
      injection Hc as <-. rewrite <- Hsame in Hr. discriminate. }
  rewrite (xmlSecFindNode_root doc0 doc1) by done.
  destruct (xmlSecFindNode doc0 [] "certificate" xmlSecNodeCertificatesNS)
    as [cert|] eqn:Ecert.
  2:{ eexists. split; [done|]. left. split; [|done]. split; [by eexists|].
      right. exists certs. by rewrite <- Hsame. }
  assert (Hno : ~ (is_Some (Some root) /\
                   (Some certs = @None xmlNodePtr \/
                    exists c, Some certs = Some c /\
                      (RegisterID L doc0 c "id" w).1.1 = 0 /\
                      Some cert = @None xmlNodePtr))).
  { intros [_ [H | (c & _ & _ & H)]]; discriminate. }
  destruct (RegisterID_outcome doc1 cert "id" (put_env w e0))
    as [(doc2 & Heq2 & Hroot2) | (d2 & Heq2 & Hd2)]; rewrite Heq2; simpl.
  2:{ exists [d2; E_register_id_certNode]. rewrite <- app_assoc.
      split; [done|]. right. split; [done|]. simpl. by rewrite Hd2. }
  destruct (xmlXPathNewContext L doc2 e0) as [ctx e1].
  destruct ctx as [xpathCtx|]; simpl; [|eexists; split; [done|]; by right].
  pose proof (register_namespaces_status (xmlXPathRegisterNs L) xpathCtx nsl)
    as Hst.
  pose proof (register_namespaces_diags (xmlXPathRegisterNs L) xpathCtx nsl)
    as Hkinds.
  destruct (register_namespaces (xmlXPathRegisterNs L) xpathCtx nsl)
    as [[rc xpathCtx'] msgs].
  simpl in Hst, Hkinds. destruct Hst as [[-> ->] | ->]; simpl.
  2:{ exists (msgs ++ [E_register_ns_list nsList]). rewrite app_assoc.
      split; [done|]. right. split; [done|].
      by rewrite forallb_app, Hkinds. }
  destruct (xmlXPathEvalExpression L xpathExpr xpathCtx' doc2 e1) as [obj e2].
  destruct obj as [xpathObj|]; simpl.
  2:{ exists [E_eval_xpath xpathExpr]. rewrite app_nil_r.
      split; [done|]. by right. }
  destruct (xmlSecFindNode doc2 [] (xmlSecNodeSignature L) (xmlSecDSigNs L)).
  2:{ exists [E_start_node_not_found tmpl_file]. simpl. rewrite app_nil_r.
      split; [done|]. by right. }
  match goal with
  | |- context [sign_nodes L key_file ?t ?d ?w1] =>
      destruct (sign_nodes_diags key_file t d w1) as (err & Herr & Hkind);
      destruct (sign_nodes L key_file t d w1) as [[rc doc3] w3]
  end.
  simpl in Herr. rewrite app_nil_r in Herr.
  exists err. split; [by destruct (rc <? 0)|]. by right.
Qed.

(** C2, as the program has it.  The container and the certificate are
    each searched from the root element of the parsed document.  When
    the search for one of them finds nothing, the run answers -1, writes
    no document and signs nothing.  And the run writes the diagnostic of a
    node that was not found (it names the container in both cases)
    exactly when the document has a root under which the search for the
    container finds nothing, or finds the container, registers its
    identifier, and the search for the certificate, from the root, finds
    nothing; the diagnostic is then all that the run writes to stderr. *)
Theorem sign_file_requires_certificate_nodes tmpl_file key_file
    (w : World Env) doc0 e0 :
  xmlReadFile L tmpl_file (w_env w) = (Some doc0, e0) ->
  let r := sign_file L tmpl_file key_file w in
  let no_container :=
    xmlSecFindNode doc0 [] xmlSecNodeCertificates xmlSecNodeCertificatesNS
    = None in
  let no_certificate :=
    xmlSecFindNode doc0 [] "certificate" xmlSecNodeCertificatesNS = None in
  let missing :=
    is_Some (doc_root doc0) /\
    (no_container \/
     exists certs,
       xmlSecFindNode doc0 [] xmlSecNodeCertificates xmlSecNodeCertificatesNS
       = Some certs /\
       (RegisterID L doc0 certs "id" w).1.1 = 0 /\
       no_certificate) in
  (no_container \/ no_certificate ->
   r.1 = -1 /\
   doc_dumps (w_stdout r.2) = doc_dumps (w_stdout w) /\
   w_engine r.2 = w_engine w) /\
  exists err,
    w_stderr r.2 = w_stderr w ++ err /\
    (forall name, E_find_node name ∈ err <->
                  name = xmlSecNodeCertificates /\ missing) /\
    (missing -> err = [E_find_node xmlSecNodeCertificates]).
Proof.
  intros Hread r no_container no_certificate missing. split.
  - intros Hmiss.
    destruct (sign_file_cases L tmpl_file key_file w)
      as [(Hrc & Heng & _ & Hout & _) |
          (d & e & doc1 & w1 & tab & Hread' & _ & [c1 Hc1] & [c2 Hc2] & _)];
      [done|].
    rewrite Hread in Hread'. injection Hread' as <- <-.
    subst no_container no_certificate. destruct Hmiss; congruence.
  - destruct (sign_file_find_node tmpl_file key_file w doc0 e0 Hread)
      as (err & Herr & [[Hm ->] | [Hm Hkinds]]).
    + exists [E_find_node xmlSecNodeCertificates]. split; [exact Herr|].
      split; [|done]. intros name. split.
      * intros Hin. apply list_elem_of_singleton in Hin. by injection Hin as ->.
      * intros [-> _]. by apply list_elem_of_singleton.
    + exists err. split; [exact Herr|]. split; [|done].
      intros name. split; [|by intros [_ ?]].
      intros Hin. rewrite forallb_forall in Hkinds.
      apply list_elem_of_In, Hkinds in Hin. discriminate.
Qed.

End DriverSteps.

(** ** The whole run on the sample world *)




(** What that run leaves on stdout: the listing of the two signature
    elements and the debug dump of the first context. *)
Example sign_file_sample_output_of_failed_run :
  w_stdout (sign_file Sample.libs "tmpl.xml" "rsakey.pem" (Sample.world 1)).2
  = [OutResult 2;
     OutElementNs Sample.dsig_ns "Signature";
     OutElementNs Sample.dsig_ns "Signature";
     OutDSigCtxDebugDump (mkDSigCtx 0 (Some (mkKey 7 (Some "rsakey.pem"))))].
Proof. vm_compute. reflexivity. Qed.



(** The engine calls of the sample run, as two blocks. *)
Example sign_file_sample_blocks :
  w_engine (sign_file Sample.libs "tmpl.xml" "rsakey.pem" (Sample.world 5)).2
  = engine_blocks 0 "rsakey.pem"
      [(sample_registered_template, [1%nat]);
       (sample_registered_template, [3%nat])].
Proof. vm_compute. reflexivity. Qed.

Lemma sign_file_requires_certificate_nodes_witness :
  xmlReadFile Sample.libs "bare.xml" (w_env (Sample.world 5))
  = (Some Sample.template_bare, w_env (Sample.world 5)) /\
  let r := sign_file Sample.libs "bare.xml" "rsakey.pem" (Sample.world 5) in
  let no_container :=
    xmlSecFindNode Sample.template_bare [] xmlSecNodeCertificates
      xmlSecNodeCertificatesNS = None in
  let no_certificate :=
    xmlSecFindNode Sample.template_bare [] "certificate"
      xmlSecNodeCertificatesNS = None in
  let missing :=
    is_Some (doc_root Sample.template_bare) /\
    (no_container \/
     exists certs,
       xmlSecFindNode Sample.template_bare [] xmlSecNodeCertificates
         xmlSecNodeCertificatesNS = Some certs /\
       (RegisterID Sample.libs Sample.template_bare certs "id"
          (Sample.world 5)).1.1 = 0 /\
       no_certificate) in
  (no_container \/ no_certificate ->
   r.1 = -1 /\
   doc_dumps (w_stdout r.2) = doc_dumps (w_stdout (Sample.world 5)) /\
   w_engine r.2 = w_engine (Sample.world 5)) /\
  exists err,
    w_stderr r.2 = w_stderr (Sample.world 5) ++ err /\
    (forall name, E_find_node name ∈ err <->
                  name = xmlSecNodeCertificates /\ missing) /\
    (missing -> err = [E_find_node xmlSecNodeCertificates]).
Proof.
  assert (H1 : xmlReadFile Sample.libs "bare.xml" (w_env (Sample.world 5))
               = (Some Sample.template_bare, w_env (Sample.world 5)))
    by reflexivity.
  split; [exact H1|].
  exact (sign_file_requires_certificate_nodes Sample.libs "bare.xml"
           "rsakey.pem" (Sample.world 5) _ _ H1).
Defined.

(** The run on the sample document whose certificate is outside the
    container succeeds, and writes no diagnostic. *)
Example sign_file_sample_certificate_outside :
  let r := sign_file Sample.libs "outside.xml" "rsakey.pem" (Sample.world 5) in
  r.1 = 0 /\ w_stderr r.2 = [] /\
  xmlSecFindNode Sample.template_cert_outside [1%nat] "certificate"
    xmlSecNodeCertificatesNS = None /\
  xmlSecFindNode Sample.template_cert_outside [] "certificate"
    xmlSecNodeCertificatesNS = Some [0%nat].
Proof. vm_compute. repeat split. Qed.
